(** * fine-tune-flow.ipynb: the fine-tuning job workflow

    A shallow embedding of the notebook's code cells.  The notebook is a
    straight-line client of an external service: every cell reads and
    rebinds notebook globals, calls the OpenAI client library or the file
    system, prints, and may raise.  The cells are embedded as programs of a
    state-and-exception monad over a machine made of

    - the outside world (disk, process environment, remote service), kept
      abstract and driven by a record of operations, [Outside];
    - the notebook's global variables, [Kernel];
    - the text printed so far, and the log of calls that left the notebook.

    Markdown cells are numbered with the code cells, from 0:
    code lives in cells 1, 2, 4, 6, 8, 10, 12 and 14. *)

From stdpp Require Import base option list strings sorting.
From Stdlib Require Import ZArith Ascii String DecimalString.

Local Open Scope string_scope.
Local Open Scope Z_scope.
Local Open Scope list_scope.

(** ** Data returned by the client library *)

(** [FineTuningJob.status] is a string literal of the client library; the
    library's declaration is not part of the notebook.  The six values are
    the ones the job lifecycle knows; the notebook's recorded output shows
    two of them, [validating_files] and [running]. *)
Inductive Status : Type :=
  | validating_files
  | queued
  | running
  | succeeded
  | failed
  | cancelled.

Global Instance Status_eq_dec : EqDecision Status.
Proof. solve_decision. Defined.

(** The text [print] shows for a status. *)
Definition status_str (s : Status) : string :=
  match s with
  | validating_files => "validating_files"
  | queued => "queued"
  | running => "running"
  | succeeded => "succeeded"
  | failed => "failed"
  | cancelled => "cancelled"
  end.

(** The fields of a job object that the cells read: [response.id],
    [response.status], [response.trained_tokens] (cells 6 and 8) and
    [response.fine_tuned_model] (cell 12).  The last two may be [None]. *)
Module FineTuningJob.
Record t : Type := mk {
  id : string;
  status : Status;
  fine_tuned_model : option string;
  trained_tokens : option Z
}.
End FineTuningJob.

(** An uploaded file: the cells read [.id] only. *)
Module FileObject.
Record t : Type := mk { id : string }.
End FileObject.

(** A job event.  Cell 10 reads [.message]; [created_at] is the arrival
    time the service stamps on the event, by which "newest first" and
    "chronological" are meant. *)
Module Event.
Record t : Type := mk {
  created_at : Z;
  message : string
}.
End Event.

(** A chat completion, down to the path cell 14 follows:
    [response.choices[0].message.content], where [content] may be [None]. *)
Module ChatCompletion.
Record Message : Type := mkMessage { content : option string }.
Record Choice : Type := mkChoice { message : Message }.
Record t : Type := mk { choices : list Choice }.
End ChatCompletion.

(** ** Objects the notebook makes itself *)

(** What an [import] statement binds a name to: a module, or one name of a
    module. *)
Inductive Imported : Type :=
  | Module_ (module : string)
  | From_ (module name : string).

(** The file object of a [with open(...) as fd:] block: the path it was
    opened at, the bytes it reads, and whether the block has closed it. *)
Module FileHandle.
Record t : Type := mk {
  path : string;
  bytes : string;
  closed : bool
}.
End FileHandle.

(** ** Arguments sent by the notebook *)

(** [OpenAI(api_key=...)]. *)
Record Client : Type := mkClient { api_key : string }.

(** The keyword arguments of [client.fine_tuning.jobs.create].  An argument
    left out of the call is [None] here.  The markdown of cell 5 lists the
    optional ones; cell 6 supplies the first four. *)
Record Hyperparameters : Type := mkHyperparameters {
  batch_size : option Z;
  learning_rate_multiplier : option string;
  n_epochs : option Z
}.

Module JobCreateParams.
Record t : Type := mk {
  training_file : string;
  validation_file : option string;
  model : string;
  suffix : option string;
  seed : option Z;
  hyperparameters : option Hyperparameters;
  integrations : option (list string)
}.
End JobCreateParams.

(** One entry of [test_messages]. *)
Record ChatMessageParam : Type := mkChatMessageParam {
  role : string;
  content : string
}.

(** The keyword arguments of [client.chat.completions.create] in cell 14.
    [model] is [fine_tuned_model_id], which cell 12 may have bound to
    [None]. *)
Module ChatParams.
Record t : Type := mk {
  model : option string;
  messages : list ChatMessageParam;
  temperature : Z;
  max_tokens : Z
}.
End ChatParams.

(** ** Exceptions *)

(** What the remote service (or the transport to it) reports instead of an
    answer: an HTTP status and the body's message.  The notebook never
    inspects it. *)
Record ApiError : Type := mkApiError {
  http_status : Z;
  api_message : string
}.

Inductive PyError : Type :=
  | ImportError (module : string)       (* an [import] of a package not installed *)
  | NameError (name : string)           (* a global read before any cell bound it *)
  | FileNotFoundError (path : string)   (* [open] on a missing file *)
  | APIError (e : ApiError)             (* raised by the client library *)
  | RuntimeError (msg : string)         (* raised by cell 12 *)
  | IndexError (msg : string).          (* [choices[0]] on an empty list *)

Inductive Result (A : Type) : Type :=
  | Ok (a : A)
  | Raise (e : PyError).
Arguments Ok {A} a.
Arguments Raise {A} e.

(** ** Calls that leave the notebook *)

Inductive Request : Type :=
  | ReqLoadDotenv
  | ReqGetenv (name : string)
  | ReqOpen (path : string)
  | ReqFilesCreate (c : Client) (file : string) (purpose : string)
  | ReqJobsCreate (c : Client) (p : JobCreateParams.t)
  | ReqJobsRetrieve (c : Client) (job_id : string)
  | ReqJobsListEvents (c : Client) (job_id : string)
  | ReqChatCreate (c : Client) (p : ChatParams.t).

(** ** The outside world

    [W] is the state of everything outside the notebook.  Each operation
    returns the world after the call: that world also accounts for whatever
    happened outside (training progress, other clients) before the next
    call, so an operation that hands back the world unchanged is one with
    no change at the service between this call and the next. *)
Record Outside (W : Type) : Type := mkOutside {
  (* whether the interpreter finds the package; an import is a statement of
     the language, not a call, and is not logged *)
  out_importable : W → string → bool;
  out_load_dotenv : W → W;
  out_getenv : W → string → W * option string;
  (* file contents, or [None] when no file is at that path *)
  out_open : W → string → W * option string;
  out_files_create : W → Client → string → string → W * (ApiError + FileObject.t);
  out_jobs_create : W → Client → JobCreateParams.t → W * (ApiError + FineTuningJob.t);
  out_jobs_retrieve : W → Client → string → W * (ApiError + FineTuningJob.t);
  out_jobs_list_events : W → Client → string → W * (ApiError + list Event.t);
  out_chat_create : W → Client → ChatParams.t → W * (ApiError + ChatCompletion.t)
}.
Arguments out_importable {W}.
Arguments out_load_dotenv {W}.
Arguments out_getenv {W}.
Arguments out_open {W}.
Arguments out_files_create {W}.
Arguments out_jobs_create {W}.
Arguments out_jobs_retrieve {W}.
Arguments out_jobs_list_events {W}.
Arguments out_chat_create {W}.

(** ** The notebook's globals

    One field per name the code cells bind, the names bound by cell 1's
    imports included; [None] is a name no cell has bound yet. *)

(** [response] is rebound by cells 6, 8, 10, 12 and 14 to objects of three
    different classes. *)
Inductive Response : Type :=
  | RJob (j : FineTuningJob.t)
  | RPage (data : list Event.t)
  | RChat (c : ChatCompletion.t).

Record Kernel : Type := mkKernel {
  os : option Imported;
  pd : option Imported;
  OpenAI : option Imported;
  load_dotenv : option Imported;
  client : option Client;
  data_folder : option string;
  training_file_name : option string;
  validation_file_name : option string;
  training_fd : option FileHandle.t;
  training_response : option FileObject.t;
  training_file_id : option string;
  validation_fd : option FileHandle.t;
  validation_response : option FileObject.t;
  validation_file_id : option string;
  response : option Response;
  job_id : option string;
  events : option (list Event.t);
  (* the loop variable of cell 10 *)
  event : option Event.t;
  (* bound by cell 12 before its test, so it can be bound to [None] *)
  fine_tuned_model_id : option (option string);
  test_messages : option (list ChatMessageParam)
}.

(** A kernel that has run no cell. *)
Definition fresh_kernel : Kernel :=
  mkKernel None None None None None None None None None None
    None None None None None None None None None None.

Definition set_os (v : Imported) (k : Kernel) : Kernel :=
  mkKernel (Some v) (pd k) (OpenAI k) (load_dotenv k) (client k) (data_folder k)
    (training_file_name k) (validation_file_name k) (training_fd k)
    (training_response k) (training_file_id k) (validation_fd k) (validation_response k)
    (validation_file_id k) (response k) (job_id k) (events k) (event k)
    (fine_tuned_model_id k) (test_messages k).

Definition set_pd (v : Imported) (k : Kernel) : Kernel :=
  mkKernel (os k) (Some v) (OpenAI k) (load_dotenv k) (client k) (data_folder k)
    (training_file_name k) (validation_file_name k) (training_fd k)
    (training_response k) (training_file_id k) (validation_fd k) (validation_response k)
    (validation_file_id k) (response k) (job_id k) (events k) (event k)
    (fine_tuned_model_id k) (test_messages k).

Definition set_OpenAI (v : Imported) (k : Kernel) : Kernel :=
  mkKernel (os k) (pd k) (Some v) (load_dotenv k) (client k) (data_folder k)
    (training_file_name k) (validation_file_name k) (training_fd k)
    (training_response k) (training_file_id k) (validation_fd k) (validation_response k)
    (validation_file_id k) (response k) (job_id k) (events k) (event k)
    (fine_tuned_model_id k) (test_messages k).

Definition set_load_dotenv (v : Imported) (k : Kernel) : Kernel :=
  mkKernel (os k) (pd k) (OpenAI k) (Some v) (client k) (data_folder k)
    (training_file_name k) (validation_file_name k) (training_fd k)
    (training_response k) (training_file_id k) (validation_fd k) (validation_response k)
    (validation_file_id k) (response k) (job_id k) (events k) (event k)
    (fine_tuned_model_id k) (test_messages k).

Definition set_client (v : Client) (k : Kernel) : Kernel :=
  mkKernel (os k) (pd k) (OpenAI k) (load_dotenv k) (Some v) (data_folder k)
    (training_file_name k) (validation_file_name k) (training_fd k)
    (training_response k) (training_file_id k) (validation_fd k) (validation_response k)
    (validation_file_id k) (response k) (job_id k) (events k) (event k)
    (fine_tuned_model_id k) (test_messages k).

Definition set_data_folder (v : string) (k : Kernel) : Kernel :=
  mkKernel (os k) (pd k) (OpenAI k) (load_dotenv k) (client k) (Some v)
    (training_file_name k) (validation_file_name k) (training_fd k)
    (training_response k) (training_file_id k) (validation_fd k) (validation_response k)
    (validation_file_id k) (response k) (job_id k) (events k) (event k)
    (fine_tuned_model_id k) (test_messages k).

Definition set_training_file_name (v : string) (k : Kernel) : Kernel :=
  mkKernel (os k) (pd k) (OpenAI k) (load_dotenv k) (client k) (data_folder k) (Some v)
    (validation_file_name k) (training_fd k) (training_response k) (training_file_id k)
    (validation_fd k) (validation_response k) (validation_file_id k) (response k)
    (job_id k) (events k) (event k) (fine_tuned_model_id k) (test_messages k).

Definition set_validation_file_name (v : string) (k : Kernel) : Kernel :=
  mkKernel (os k) (pd k) (OpenAI k) (load_dotenv k) (client k) (data_folder k)
    (training_file_name k) (Some v) (training_fd k) (training_response k)
    (training_file_id k) (validation_fd k) (validation_response k)
    (validation_file_id k) (response k) (job_id k) (events k) (event k)
    (fine_tuned_model_id k) (test_messages k).

Definition set_training_fd (v : FileHandle.t) (k : Kernel) : Kernel :=
  mkKernel (os k) (pd k) (OpenAI k) (load_dotenv k) (client k) (data_folder k)
    (training_file_name k) (validation_file_name k) (Some v) (training_response k)
    (training_file_id k) (validation_fd k) (validation_response k)
    (validation_file_id k) (response k) (job_id k) (events k) (event k)
    (fine_tuned_model_id k) (test_messages k).

Definition set_training_response (v : FileObject.t) (k : Kernel) : Kernel :=
  mkKernel (os k) (pd k) (OpenAI k) (load_dotenv k) (client k) (data_folder k)
    (training_file_name k) (validation_file_name k) (training_fd k) (Some v)
    (training_file_id k) (validation_fd k) (validation_response k)
    (validation_file_id k) (response k) (job_id k) (events k) (event k)
    (fine_tuned_model_id k) (test_messages k).

Definition set_training_file_id (v : string) (k : Kernel) : Kernel :=
  mkKernel (os k) (pd k) (OpenAI k) (load_dotenv k) (client k) (data_folder k)
    (training_file_name k) (validation_file_name k) (training_fd k)
    (training_response k) (Some v) (validation_fd k) (validation_response k)
    (validation_file_id k) (response k) (job_id k) (events k) (event k)
    (fine_tuned_model_id k) (test_messages k).

Definition set_validation_fd (v : FileHandle.t) (k : Kernel) : Kernel :=
  mkKernel (os k) (pd k) (OpenAI k) (load_dotenv k) (client k) (data_folder k)
    (training_file_name k) (validation_file_name k) (training_fd k)
    (training_response k) (training_file_id k) (Some v) (validation_response k)
    (validation_file_id k) (response k) (job_id k) (events k) (event k)
    (fine_tuned_model_id k) (test_messages k).

Definition set_validation_response (v : FileObject.t) (k : Kernel) : Kernel :=
  mkKernel (os k) (pd k) (OpenAI k) (load_dotenv k) (client k) (data_folder k)
    (training_file_name k) (validation_file_name k) (training_fd k)
    (training_response k) (training_file_id k) (validation_fd k) (Some v)
    (validation_file_id k) (response k) (job_id k) (events k) (event k)
    (fine_tuned_model_id k) (test_messages k).

Definition set_validation_file_id (v : string) (k : Kernel) : Kernel :=
  mkKernel (os k) (pd k) (OpenAI k) (load_dotenv k) (client k) (data_folder k)
    (training_file_name k) (validation_file_name k) (training_fd k)
    (training_response k) (training_file_id k) (validation_fd k) (validation_response k)
    (Some v) (response k) (job_id k) (events k) (event k) (fine_tuned_model_id k)
    (test_messages k).

Definition set_response (v : Response) (k : Kernel) : Kernel :=
  mkKernel (os k) (pd k) (OpenAI k) (load_dotenv k) (client k) (data_folder k)
    (training_file_name k) (validation_file_name k) (training_fd k)
    (training_response k) (training_file_id k) (validation_fd k) (validation_response k)
    (validation_file_id k) (Some v) (job_id k) (events k) (event k)
    (fine_tuned_model_id k) (test_messages k).

Definition set_job_id (v : string) (k : Kernel) : Kernel :=
  mkKernel (os k) (pd k) (OpenAI k) (load_dotenv k) (client k) (data_folder k)
    (training_file_name k) (validation_file_name k) (training_fd k)
    (training_response k) (training_file_id k) (validation_fd k) (validation_response k)
    (validation_file_id k) (response k) (Some v) (events k) (event k)
    (fine_tuned_model_id k) (test_messages k).

Definition set_events (v : (list Event.t)) (k : Kernel) : Kernel :=
  mkKernel (os k) (pd k) (OpenAI k) (load_dotenv k) (client k) (data_folder k)
    (training_file_name k) (validation_file_name k) (training_fd k)
    (training_response k) (training_file_id k) (validation_fd k) (validation_response k)
    (validation_file_id k) (response k) (job_id k) (Some v) (event k)
    (fine_tuned_model_id k) (test_messages k).

Definition set_event (v : Event.t) (k : Kernel) : Kernel :=
  mkKernel (os k) (pd k) (OpenAI k) (load_dotenv k) (client k) (data_folder k)
    (training_file_name k) (validation_file_name k) (training_fd k)
    (training_response k) (training_file_id k) (validation_fd k) (validation_response k)
    (validation_file_id k) (response k) (job_id k) (events k) (Some v)
    (fine_tuned_model_id k) (test_messages k).

Definition set_fine_tuned_model_id (v : (option string)) (k : Kernel) : Kernel :=
  mkKernel (os k) (pd k) (OpenAI k) (load_dotenv k) (client k) (data_folder k)
    (training_file_name k) (validation_file_name k) (training_fd k)
    (training_response k) (training_file_id k) (validation_fd k) (validation_response k)
    (validation_file_id k) (response k) (job_id k) (events k) (event k) (Some v)
    (test_messages k).

Definition set_test_messages (v : (list ChatMessageParam)) (k : Kernel) : Kernel :=
  mkKernel (os k) (pd k) (OpenAI k) (load_dotenv k) (client k) (data_folder k)
    (training_file_name k) (validation_file_name k) (training_fd k)
    (training_response k) (training_file_id k) (validation_fd k) (validation_response k)
    (validation_file_id k) (response k) (job_id k) (events k) (event k)
    (fine_tuned_model_id k) (Some v).

(** ** The machine and its monad *)

Record Machine (W : Type) : Type := mkMachine {
  world : W;
  globals : Kernel;
  stdout : list string;        (* printed lines, oldest first *)
  calls : list Request         (* calls that left the notebook, oldest first *)
}.
Arguments mkMachine {W}.
Arguments world {W}.
Arguments globals {W}.
Arguments stdout {W}.
Arguments calls {W}.

(** A machine about to run its first cell. *)
Definition boot {W : Type} (w : W) : Machine W := mkMachine w fresh_kernel [] [].

(** A statement either completes with a value or raises; the machine it
    leaves behind is kept in both cases, as a cell that raises half-way
    keeps the bindings made before. *)
Definition M (W A : Type) : Type := Machine W → Machine W * Result A.

Definition ret {W A : Type} (a : A) : M W A := λ m, (m, Ok a).

Definition raise {W A : Type} (e : PyError) : M W A := λ m, (m, Raise e).

Definition bind {W A B : Type} (x : M W A) (f : A → M W B) : M W B :=
  λ m, match x m with
       | (m', Ok a) => f a m'
       | (m', Raise e) => (m', Raise e)
       end.

Notation "x <- c1 ;; c2" := (bind c1 (λ x, c2))
  (at level 100, c1 at next level, right associativity).
Notation "c1 ;; c2" := (bind c1 (λ _, c2))
  (at level 100, right associativity).

(** Reading a global: [NameError] when no cell has bound it. *)
Definition load {W A : Type} (name : string) (var : Kernel → option A) : M W A :=
  λ m, match var (globals m) with
       | Some v => (m, Ok v)
       | None => (m, Raise (NameError name))
       end.

(** Binding a global. *)
Definition store {W : Type} (upd : Kernel → Kernel) : M W unit :=
  λ m, (mkMachine (world m) (upd (globals m)) (stdout m) (calls m), Ok tt).

(** [print(...)]: one more line. *)
Definition print {W : Type} (line : string) : M W unit :=
  λ m, (mkMachine (world m) (globals m) (stdout m ++ [line]) (calls m), Ok tt).

(** A call that leaves the notebook: the outside answers and moves on, and
    the call is logged. *)
Definition call {W A : Type} (r : Request) (op : W → W * A) : M W A :=
  λ m, let (w', a) := op (world m) in
       (mkMachine w' (globals m) (stdout m) (calls m ++ [r]), Ok a).

(** The way out of a [with] block: [cleanup] is done to the globals whether
    the block completed or raised, and the block's outcome stands. *)
Definition finally {W A : Type} (block : M W A) (cleanup : Kernel → Kernel) : M W A :=
  λ m, let (m', r) := block m in
       (mkMachine (world m') (cleanup (globals m')) (stdout m') (calls m'), r).

(** A call through the client library: an error answer is raised. *)
Definition api {W A : Type} (r : Request) (op : W → W * (ApiError + A)) : M W A :=
  x <- call r op ;;
  match x with
  | inl e => raise (APIError e)
  | inr a => ret a
  end.

(** ** Built-ins and library calls the cells use *)

(** [str(x)] of an [int]. *)
Definition str_int (z : Z) : string := NilZero.string_of_int (Z.to_int z).

(** [str(x)] of an optional value: [None] prints as the word. *)
Definition str_opt {A : Type} (str : A → string) (o : option A) : string :=
  match o with
  | Some a => str a
  | None => "None"
  end.

(** [print(a, b)] separates its arguments by one space. *)
Definition print2 {W : Type} (a b : string) : M W unit := print (a +:+ " " +:+ b).

Definition startswith_sep (s : string) : bool :=
  match s with
  | String "/"%char _ => true
  | _ => false
  end.

Fixpoint endswith_sep (s : string) : bool :=
  match s with
  | EmptyString => false
  | String c EmptyString => if decide (c = "/"%char) then true else false
  | String _ rest => endswith_sep rest
  end.

(** [os.path.join(a, b)] on a POSIX system. *)
Definition os_path_join (a b : string) : string :=
  if startswith_sep b then b
  else if decide (a = "") then b
  else if endswith_sep a then a +:+ b
  else a +:+ "/" +:+ b.

Section Library.
Context {W : Type} (out : Outside W).

(** [import package] and [from package import name]: the name is bound
    when the interpreter finds the package. *)
Definition import_ (package : string) (bind : Kernel → Kernel) : M W unit :=
  λ m, if out_importable out (world m) package
       then store bind m
       else raise (ImportError package) m.

(** [load_dotenv()]. *)
Definition dotenv_load_dotenv : M W unit :=
  call ReqLoadDotenv (λ w, (out_load_dotenv out w, tt)).

(** [os.environ.get(name, default)]. *)
Definition os_environ_get (name default : string) : M W string :=
  v <- call (ReqGetenv name) (λ w, out_getenv out w name) ;;
  ret (from_option (λ s, s) default v).

(** [open(path, "rb")]: the bytes the upload that follows will read. *)
Definition open_rb (path : string) : M W string :=
  f <- call (ReqOpen path) (λ w, out_open out w path) ;;
  match f with
  | Some bytes => ret bytes
  | None => raise (FileNotFoundError path)
  end.

(** [client.files.create(file=..., purpose=...)]. *)
Definition files_create (c : Client) (file purpose : string) : M W FileObject.t :=
  api (ReqFilesCreate c file purpose) (λ w, out_files_create out w c file purpose).

(** [client.fine_tuning.jobs.create(...)]. *)
Definition jobs_create (c : Client) (p : JobCreateParams.t) : M W FineTuningJob.t :=
  api (ReqJobsCreate c p) (λ w, out_jobs_create out w c p).

(** [client.fine_tuning.jobs.retrieve(job_id)]. *)
Definition jobs_retrieve (c : Client) (id : string) : M W FineTuningJob.t :=
  api (ReqJobsRetrieve c id) (λ w, out_jobs_retrieve out w c id).

(** [client.fine_tuning.jobs.list_events(job_id)]: one page, [.data]. *)
Definition jobs_list_events (c : Client) (id : string) : M W (list Event.t) :=
  api (ReqJobsListEvents c id) (λ w, out_jobs_list_events out w c id).

(** [client.chat.completions.create(...)]. *)
Definition chat_completions_create (c : Client) (p : ChatParams.t) : M W ChatCompletion.t :=
  api (ReqChatCreate c p) (λ w, out_chat_create out w c p).

(** ** The code cells *)

(** Cell 1: the imports, [load_dotenv()], and the client.  [os] is part of
    the interpreter and is always found. *)
Definition cell1 : M W unit :=
  store (set_os (Module_ "os")) ;;
  import_ "pandas" (set_pd (Module_ "pandas")) ;;
  import_ "openai" (set_OpenAI (From_ "openai" "OpenAI")) ;;
  import_ "dotenv" (set_load_dotenv (From_ "dotenv" "load_dotenv")) ;;
  _ <- load "load_dotenv" load_dotenv ;;
  dotenv_load_dotenv ;;
  _ <- load "OpenAI" OpenAI ;;
  _ <- load "os" os ;;
  key <- os_environ_get "OPENAI_API_KEY" "<your OpenAI API key if not set as env var>" ;;
  store (set_client (mkClient key)).

(** Cell 2: data setup.  [os.path.join] reads the global [os], which only
    cell 1 binds. *)
Definition cell2 : M W unit :=
  store (set_data_folder "data") ;;
  _ <- load "os" os ;;
  d <- load "data_folder" data_folder ;;
  store (set_training_file_name (os_path_join d "review_finetune_training.jsonl")) ;;
  _ <- load "os" os ;;
  d <- load "data_folder" data_folder ;;
  store (set_validation_file_name (os_path_join d "review_finetune_validation.jsonl")).

(** Cell 4 (1. Upload files).  Each [with] block binds its file object
    once the file is open, and closes it on the way out. *)
Definition cell4 : M W unit :=
  name <- load "training_file_name" training_file_name ;;
  opened <- open_rb name ;;
  store (set_training_fd (FileHandle.mk name opened false)) ;;
  finally
    (c <- load "client" client ;;
     fd <- load "training_fd" training_fd ;;
     r <- files_create c (FileHandle.bytes fd) "fine-tune" ;;
     store (set_training_response r))
    (set_training_fd (FileHandle.mk name opened true)) ;;
  r <- load "training_response" training_response ;;
  store (set_training_file_id (FileObject.id r)) ;;
  name <- load "validation_file_name" validation_file_name ;;
  opened <- open_rb name ;;
  store (set_validation_fd (FileHandle.mk name opened false)) ;;
  finally
    (c <- load "client" client ;;
     fd <- load "validation_fd" validation_fd ;;
     r <- files_create c (FileHandle.bytes fd) "fine-tune" ;;
     store (set_validation_response r))
    (set_validation_fd (FileHandle.mk name opened true)) ;;
  r <- load "validation_response" validation_response ;;
  store (set_validation_file_id (FileObject.id r)) ;;
  tid <- load "training_file_id" training_file_id ;;
  print2 "Training file ID:" tid ;;
  vid <- load "validation_file_id" validation_file_id ;;
  print2 "Validation file ID:" vid.

(** The arguments cell 6 passes to [jobs.create]. *)
Definition cell6_params (tid vid : string) : JobCreateParams.t :=
  JobCreateParams.mk tid (Some vid) "gpt-3.5-turbo" (Some "via-api") None None None.

(** Cell 6 (2. Create fine-tuning job). *)
Definition cell6 : M W unit :=
  c <- load "client" client ;;
  tid <- load "training_file_id" training_file_id ;;
  vid <- load "validation_file_id" validation_file_id ;;
  j <- jobs_create c (cell6_params tid vid) ;;
  store (set_response (RJob j)) ;;
  store (set_job_id (FineTuningJob.id j)) ;;
  print2 "Job ID:" (FineTuningJob.id j) ;;
  print2 "Status:" (status_str (FineTuningJob.status j)).

(** Cell 8 (3. Check job status). *)
Definition cell8 : M W unit :=
  c <- load "client" client ;;
  id <- load "job_id" job_id ;;
  j <- jobs_retrieve c id ;;
  store (set_response (RJob j)) ;;
  print2 "Job ID:" (FineTuningJob.id j) ;;
  print2 "Status:" (status_str (FineTuningJob.status j)) ;;
  print2 "Trained Tokens:" (str_opt str_int (FineTuningJob.trained_tokens j)).

(** [for event in events: print(event.message)]: [event] is a global like
    the others and keeps the last event after the loop. *)
Fixpoint print_messages (evs : list Event.t) : M W unit :=
  match evs with
  | [] => ret tt
  | e :: rest =>
      store (set_event e) ;;
      ev <- load "event" event ;;
      print (Event.message ev) ;;
      print_messages rest
  end.

(** Cell 10 (events of the job).  [events] and [response.data] name the
    same list object, so [events.reverse()] reverses both. *)
Definition cell10 : M W unit :=
  c <- load "client" client ;;
  id <- load "job_id" job_id ;;
  data <- jobs_list_events c id ;;
  store (set_response (RPage data)) ;;
  store (set_events data) ;;
  store (λ k, set_events (reverse data) (set_response (RPage (reverse data)) k)) ;;
  evs <- load "events" events ;;
  print_messages evs.

(** Cell 12 (4. Retrieve the fine-tuned model name). *)
Definition cell12 : M W unit :=
  c <- load "client" client ;;
  id <- load "job_id" job_id ;;
  j <- jobs_retrieve c id ;;
  store (set_response (RJob j)) ;;
  store (set_fine_tuned_model_id (FineTuningJob.fine_tuned_model j)) ;;
  v <- load "fine_tuned_model_id" fine_tuned_model_id ;;
  match v with
  | None =>
      raise (RuntimeError
        "Fine-tuned model ID not found. Your job has likely not been completed yet.")
  | Some name => print2 "Fine-tuned model ID:" name
  end.

(** The two messages of cell 14. *)
Definition cell14_messages : list ChatMessageParam :=
  [ mkChatMessageParam "system"
      "You are a restaurant review analyzer. Analyze the sentiment in the review provided. Output the rating value and the sentiment as JSON .";
    mkChatMessageParam "user"
      "Review: Decent food, slow service, beatutiful decor. Would return, maybe." ].

(** Cell 14 (5. Test the model). *)
Definition cell14 : M W unit :=
  store (set_test_messages cell14_messages) ;;
  c <- load "client" client ;;
  model <- load "fine_tuned_model_id" fine_tuned_model_id ;;
  msgs <- load "test_messages" test_messages ;;
  r <- chat_completions_create c (ChatParams.mk model msgs 0 500) ;;
  store (set_response (RChat r)) ;;
  match ChatCompletion.choices r !! 0%nat with
  | None => raise (IndexError "list index out of range")
  | Some choice =>
      print (str_opt (λ s, s) (ChatCompletion.content (ChatCompletion.message choice)))
  end.

End Library.

(** ** Scripted worlds

    A concrete outside world to run the cells against: the world is a clock,
    and what the disk and the service answer is a function of the time of
    the call.  [tick] says how the clock moves at each call ([S] for a
    service that moves on, the identity for one that stands still). *)
Module Scenario.
Record t : Type := mk {
  installed : string → bool;
  env : string → option string;
  disk : string → option string;
  uploads : nat → ApiError + FileObject.t;
  job : nat → ApiError + FineTuningJob.t;
  job_events : nat → ApiError + list Event.t;
  chat : nat → ApiError + ChatCompletion.t;
  tick : nat → nat
}.

Definition play (s : t) : Outside nat :=
  mkOutside nat
    (λ _ package, installed s package)
    (λ w, tick s w)
    (λ w name, (tick s w, env s name))
    (λ w path, (tick s w, disk s path))
    (λ w _ _ _, (tick s w, uploads s w))
    (λ w _ _, (tick s w, job s w))
    (λ w _ _, (tick s w, job s w))
    (λ w _ _, (tick s w, job_events s w))
    (λ w _ _, (tick s w, chat s w)).
End Scenario.

(** Running cells one after the other, as a user does: a cell that raises
    leaves its partial effects and the session goes on. *)
Inductive Cell : Type :=
  | Cell1 | Cell2 | Cell4 | Cell6 | Cell8 | Cell10 | Cell12 | Cell14.

Definition run_cell {W : Type} (out : Outside W) (c : Cell) : M W unit :=
  match c with
  | Cell1 => cell1 out
  | Cell2 => cell2
  | Cell4 => cell4 out
  | Cell6 => cell6 out
  | Cell8 => cell8 out
  | Cell10 => cell10 out
  | Cell12 => cell12 out
  | Cell14 => cell14 out
  end.

Fixpoint session {W : Type} (out : Outside W) (cs : list Cell) (m : Machine W) : Machine W :=
  match cs with
  | [] => m
  | c :: rest => session out rest (run_cell out c m).1
  end.

(** A scripted world with every package installed, both data files on disk,
    the API key in the environment and every upload accepted; the job, its events and the chat
    answers are the script's. *)
Definition scripted (job : nat → ApiError + FineTuningJob.t)
    (job_events : nat → ApiError + list Event.t)
    (chat : nat → ApiError + ChatCompletion.t) (tick : nat → nat) : Scenario.t :=
  Scenario.mk
    (λ _, true)
    (λ name, if decide (name = "OPENAI_API_KEY") then Some "sk-test" else None)
    (λ path, if decide (path = "data/review_finetune_training.jsonl") then Some "t"
             else if decide (path = "data/review_finetune_validation.jsonl") then Some "v"
             else None)
    (λ t, inr (FileObject.mk
                 (if decide (t ≤ 3)%nat then "file-xCxjvCDx9BsgQz5m0WGHK0B8"
                  else "file-L00HnShcn5CWFtGm1IPs2Ncc")))
    job job_events chat tick.

Definition no_chat : nat → ApiError + ChatCompletion.t :=
  λ _, inl (mkApiError 404 "The model does not exist").

(** The machine after cells 1, 2, 4 and 6, from a fresh kernel at time 0. *)
Definition submitted {W : Type} (out : Outside W) (w : W) : Machine W :=
  session out [Cell1; Cell2; Cell4; Cell6] (boot w).

(** The run recorded in the notebook's outputs (cells 1, 2, 4, 6, 8): the job
    is created at the seventh call and is running by the eighth. *)
Module Recorded.
Definition the_job_id : string := "ftjob-8X1gNa0yukCsdJBiytVKemkf".

Definition job_at (t : nat) : FineTuningJob.t :=
  FineTuningJob.mk the_job_id
    (if decide (t ≤ 6)%nat then validating_files else running) None None.

Definition out : Outside nat :=
  Scenario.play (scripted (λ t, inr (job_at t)) (λ _, inr []) no_chat S).
End Recorded.

Example recorded_stdout :
  stdout (session Recorded.out [Cell1; Cell2; Cell4; Cell6; Cell8] (boot 0%nat)) =
  [ "Training file ID: file-xCxjvCDx9BsgQz5m0WGHK0B8";
    "Validation file ID: file-L00HnShcn5CWFtGm1IPs2Ncc";
    "Job ID: ftjob-8X1gNa0yukCsdJBiytVKemkf";
    "Status: validating_files";
    "Job ID: ftjob-8X1gNa0yukCsdJBiytVKemkf";
    "Status: running";
    "Trained Tokens: None" ].
Proof. vm_compute. reflexivity. Qed.

Example recorded_cell12 :
  (cell12 Recorded.out (session Recorded.out [Cell1; Cell2; Cell4; Cell6; Cell8] (boot 0%nat))).2 =
  Raise (RuntimeError "Fine-tuned model ID not found. Your job has likely not been completed yet.").
Proof. vm_compute. reflexivity. Qed.

Example os_path_join_data :
  os_path_join "data" "review_finetune_training.jsonl" = "data/review_finetune_training.jsonl".
Proof. reflexivity. Qed.

Example str_int_292 : str_int 292 = "292".
Proof. reflexivity. Qed.

(** ** Stepping through a cell

    One equation per cell: what the cell does to the machine once the
    globals it reads are bound, by cases on what the outside answers. *)

(** The globals after the loop of cell 10 has gone over [evs]: [event] is
    rebound at every turn. *)
Fixpoint after_loop (evs : list Event.t) (k : Kernel) : Kernel :=
  match evs with
  | [] => k
  | e :: rest => after_loop rest (set_event e k)
  end.

Lemma after_loop_last (evs : list Event.t) (k : Kernel) :
  after_loop evs k =
    match last evs with
    | Some e => set_event e k
    | None => k
    end.
Proof.
  revert k. induction evs as [|e rest IH]; intros k; [done|].
  simpl after_loop. rewrite IH. destruct rest as [|e' rest]; [done|].
  rewrite last_cons_cons. destruct (last (e' :: rest)) eqn:Hlast; [done|].
  by apply last_None in Hlast.
Qed.

(** Unfolds the monad's operations. *)
Ltac unfold_monad :=
  unfold print2, api, call, load, store, print, bind, finally, ret, raise in *.

Definition not_found_message : string :=
  "Fine-tuned model ID not found. Your job has likely not been completed yet.".

Section Steps.
Context {W : Type} (out : Outside W).

Lemma cell6_run (m : Machine W) (c : Client) (tid vid : string) :
  client (globals m) = Some c →
  training_file_id (globals m) = Some tid →
  validation_file_id (globals m) = Some vid →
  cell6 out m =
    let (w', ans) := out_jobs_create out (world m) c (cell6_params tid vid) in
    let log := (calls m ++ [ReqJobsCreate c (cell6_params tid vid)]) in
    match ans with
    | inl e => (mkMachine w' (globals m) (stdout m) log, Raise (APIError e))
    | inr j =>
        (mkMachine w'
           (set_job_id (FineTuningJob.id j) (set_response (RJob j) (globals m)))
           (stdout m ++ ["Job ID: " +:+ FineTuningJob.id j;
                         "Status: " +:+ status_str (FineTuningJob.status j)])
           log,
         Ok tt)
    end.
Proof.
  intros Hc Ht Hv. unfold cell6, jobs_create. unfold_monad.
  rewrite Hc, Ht, Hv. simpl.
  destruct (out_jobs_create out (world m) c (cell6_params tid vid)) as [w' [e|j]]; simpl.
  - reflexivity.
  - rewrite <- !app_assoc. reflexivity.
Qed.

Lemma cell8_run (m : Machine W) (c : Client) (id : string) :
  client (globals m) = Some c →
  job_id (globals m) = Some id →
  cell8 out m =
    let (w', ans) := out_jobs_retrieve out (world m) c id in
    let log := (calls m ++ [ReqJobsRetrieve c id]) in
    match ans with
    | inl e => (mkMachine w' (globals m) (stdout m) log, Raise (APIError e))
    | inr j =>
        (mkMachine w' (set_response (RJob j) (globals m))
           (stdout m ++ ["Job ID: " +:+ FineTuningJob.id j;
                         "Status: " +:+ status_str (FineTuningJob.status j);
                         "Trained Tokens: " +:+
                           str_opt str_int (FineTuningJob.trained_tokens j)])
           log,
         Ok tt)
    end.
Proof.
  intros Hc Hid. unfold cell8, jobs_retrieve. unfold_monad.
  rewrite Hc, Hid. simpl.
  destruct (out_jobs_retrieve out (world m) c id) as [w' [e|j]]; simpl.
  - reflexivity.
  - rewrite <- !app_assoc. reflexivity.
Qed.

(** The loop of cell 10 prints the messages in list order and nothing
    else. *)
Lemma print_messages_run (evs : list Event.t) (m : Machine W) :
  print_messages evs m =
    (mkMachine (world m) (after_loop evs (globals m))
       (stdout m ++ (Event.message <$> evs)) (calls m), Ok tt).
Proof.
  revert m. induction evs as [|e evs IH]; intros m; simpl.
  - unfold ret. rewrite app_nil_r. by destruct m.
  - unfold bind, store, load, print. simpl. rewrite IH. simpl. by rewrite <- app_assoc.
Qed.

Lemma cell10_run (m : Machine W) (c : Client) (id : string) :
  client (globals m) = Some c →
  job_id (globals m) = Some id →
  cell10 out m =
    let (w', ans) := out_jobs_list_events out (world m) c id in
    let log := (calls m ++ [ReqJobsListEvents c id]) in
    match ans with
    | inl e => (mkMachine w' (globals m) (stdout m) log, Raise (APIError e))
    | inr data =>
        (mkMachine w'
           (after_loop (reverse data)
              (set_events (reverse data) (set_response (RPage (reverse data)) (globals m))))
           (stdout m ++ (Event.message <$> reverse data))
           log,
         Ok tt)
    end.
Proof.
  intros Hc Hid. unfold cell10, jobs_list_events. unfold_monad.
  rewrite Hc, Hid. simpl.
  destruct (out_jobs_list_events out (world m) c id) as [w' [e|data]]; simpl.
  - reflexivity.
  - rewrite print_messages_run. reflexivity.
Qed.

Lemma cell12_run (m : Machine W) (c : Client) (id : string) :
  client (globals m) = Some c →
  job_id (globals m) = Some id →
  cell12 out m =
    let (w', ans) := out_jobs_retrieve out (world m) c id in
    let log := (calls m ++ [ReqJobsRetrieve c id]) in
    match ans with
    | inl e => (mkMachine w' (globals m) (stdout m) log, Raise (APIError e))
    | inr j =>
        let k := set_fine_tuned_model_id (FineTuningJob.fine_tuned_model j)
                   (set_response (RJob j) (globals m)) in
        match FineTuningJob.fine_tuned_model j with
        | None => (mkMachine w' k (stdout m) log, Raise (RuntimeError not_found_message))
        | Some name =>
            (mkMachine w' k (stdout m ++ ["Fine-tuned model ID: " +:+ name]) log, Ok tt)
        end
    end.
Proof.
  intros Hc Hid. unfold cell12, jobs_retrieve. unfold_monad.
  rewrite Hc, Hid. simpl.
  destruct (out_jobs_retrieve out (world m) c id) as [w' [e|j]]; simpl.
  - reflexivity.
  - destruct (FineTuningJob.fine_tuned_model j); reflexivity.
Qed.

Lemma cell14_run (m : Machine W) (c : Client) (model : option string) :
  client (globals m) = Some c →
  fine_tuned_model_id (globals m) = Some model →
  cell14 out m =
    let p := ChatParams.mk model cell14_messages 0 500 in
    let (w', ans) := out_chat_create out (world m) c p in
    let log := (calls m ++ [ReqChatCreate c p]) in
    let k := set_test_messages cell14_messages (globals m) in
    match ans with
    | inl e => (mkMachine w' k (stdout m) log, Raise (APIError e))
    | inr r =>
        match ChatCompletion.choices r !! 0%nat with
        | None =>
            (mkMachine w' (set_response (RChat r) k) (stdout m) log,
             Raise (IndexError "list index out of range"))
        | Some choice =>
            (mkMachine w' (set_response (RChat r) k)
               (stdout m ++ [str_opt (λ s, s)
                               (ChatCompletion.content (ChatCompletion.message choice))])
               log,
             Ok tt)
        end
    end.
Proof.
  intros Hc Hid. unfold cell14, chat_completions_create. unfold_monad.
  simpl. rewrite Hc. simpl. rewrite Hid. simpl.
  destruct (out_chat_create out (world m) c _) as [w' [e|r]]; simpl.
  - reflexivity.
  - destruct (ChatCompletion.choices r !! 0%nat); reflexivity.
Qed.

End Steps.

(** ** Vocabulary of the job lifecycle *)

(** A status from which the job does not move. *)
Definition terminal (s : Status) : bool :=
  match s with
  | succeeded | failed | cancelled => true
  | _ => false
  end.


(** ** Scripts used below *)

(** A service that shows a model name on a job it still reports running. *)
Module EarlyModel.
Definition job : FineTuningJob.t :=
  FineTuningJob.mk "ftjob-1" running (Some "ft:gpt-3.5-turbo:acme:via-api:1") None.
Definition out : Outside nat :=
  Scenario.play (scripted (λ _, inr job) (λ _, inr []) no_chat S).
End EarlyModel.

(** A finished job, on a service that stands still. *)
Module Finished.
Definition job : FineTuningJob.t :=
  FineTuningJob.mk "ftjob-2" succeeded (Some "ft:gpt-3.5-turbo:acme:via-api:2") (Some 4521).
Definition out : Outside nat :=
  Scenario.play (scripted (λ _, inr job) (λ _, inr []) no_chat (λ t, t)).
End Finished.

(** * Cell 12: the fine-tuned model name *)




(** * Cell 8: one look at the job *)

(** C4, as the code has it: the status check is one [jobs.retrieve] call and
    no more.  Whatever record the service answers with is bound to
    [response], terminal or not; an error answer is raised as it came.
    There is no wait, no second call and no timeout. *)
Theorem cell8_single_retrieve {W : Type} (out : Outside W) (m : Machine W)
    (c : Client) (id : string) (w' : W) (ans : ApiError + FineTuningJob.t) :
  client (globals m) = Some c →
  job_id (globals m) = Some id →
  out_jobs_retrieve out (world m) c id = (w', ans) →
  calls (cell8 out m).1 = calls m ++ [ReqJobsRetrieve c id]
  ∧ world (cell8 out m).1 = w'
  ∧ match ans with
    | inr j =>
        (cell8 out m).2 = Ok tt ∧
        response (globals (cell8 out m).1) = Some (RJob j)
    | inl e =>
        (cell8 out m).2 = Raise (APIError e) ∧
        globals (cell8 out m).1 = globals m
    end.
Proof.
  intros Hc Hid Hans. rewrite (cell8_run out m c id Hc Hid), Hans.
  destruct ans as [e|j]; simpl; auto.
Qed.

Lemma cell8_single_retrieve_witness :
  let m := submitted Recorded.out 0%nat in
  (cell8 Recorded.out m).2 = Ok tt ∧
  response (globals (cell8 Recorded.out m).1) = Some (RJob (Recorded.job_at 7)).
Proof.
  apply (cell8_single_retrieve Recorded.out (submitted Recorded.out 0%nat)
           (mkClient "sk-test") Recorded.the_job_id 8%nat (inr (Recorded.job_at 7))
           eq_refl eq_refl eq_refl).
Defined.

(** C4, as stated, fails: on the recorded run the status check returns a
    record whose status is [running], and raises nothing. *)
Lemma cell8_returns_running_job :
  let m := submitted Recorded.out 0%nat in
  ∃ j, (cell8 Recorded.out m).2 = Ok tt
       ∧ response (globals (cell8 Recorded.out m).1) = Some (RJob j)
       ∧ FineTuningJob.status j = running
       ∧ terminal (FineTuningJob.status j) = false.
Proof. exists (Recorded.job_at 7). vm_compute. auto. Qed.

(** * Cell 8 run twice *)

(** C5, as the code has it: the status check is one [jobs.retrieve] request
    for the job id bound in the notebook, and it does change the notebook:
    it rebinds [response] to the record the service answers with, leaving
    every other global as it was, and prints three lines.  A second check
    sends the same request again and binds the service's second answer;
    when that answer is the same record, the globals stay as the first
    check left them and the same three lines are printed once more. *)
Theorem cell8_poll_rebinds_and_prints {W : Type} (out : Outside W) (m : Machine W)
    (c : Client) (id : string) (w1 w2 : W) (j1 : FineTuningJob.t)
    (ans2 : ApiError + FineTuningJob.t) :
  client (globals m) = Some c →
  job_id (globals m) = Some id →
  out_jobs_retrieve out (world m) c id = (w1, inr j1) →
  out_jobs_retrieve out w1 c id = (w2, ans2) →
  let m1 := (cell8 out m).1 in
  let m2 := (cell8 out m1).1 in
  (cell8 out m).2 = Ok tt
  ∧ calls m1 = calls m ++ [ReqJobsRetrieve c id]
  ∧ world m1 = w1
  ∧ globals m1 = set_response (RJob j1) (globals m)
  ∧ stdout m1 =
      stdout m ++ ["Job ID: " +:+ FineTuningJob.id j1;
                   "Status: " +:+ status_str (FineTuningJob.status j1);
                   "Trained Tokens: " +:+
                     str_opt str_int (FineTuningJob.trained_tokens j1)]
  ∧ calls m2 = calls m1 ++ [ReqJobsRetrieve c id]
  ∧ world m2 = w2
  ∧ match ans2 with
    | inr j2 =>
        (cell8 out m1).2 = Ok tt
        ∧ globals m2 = set_response (RJob j2) (globals m)
        ∧ stdout m2 =
            stdout m1 ++ ["Job ID: " +:+ FineTuningJob.id j2;
                          "Status: " +:+ status_str (FineTuningJob.status j2);
                          "Trained Tokens: " +:+
                            str_opt str_int (FineTuningJob.trained_tokens j2)]
    | inl e =>
        (cell8 out m1).2 = Raise (APIError e)
        ∧ globals m2 = globals m1
        ∧ stdout m2 = stdout m1
    end
  ∧ (ans2 = inr j1 → globals m2 = globals m1).
Proof.
  intros Hc Hid Ha1 Ha2 m1 m2. subst m2 m1.
  rewrite (cell8_run out m c id Hc Hid), Ha1. simpl.
  rewrite (cell8_run out _ c id); [|done..]. simpl. rewrite Ha2.
  destruct ans2 as [e|j2]; simpl; repeat split; try done.
  by intros [= ->].
Qed.

Lemma cell8_poll_rebinds_and_prints_witness :
  let m1 := (cell8 Recorded.out (submitted Recorded.out 0%nat)).1 in
  globals m1 = set_response (RJob (Recorded.job_at 7)) (globals (submitted Recorded.out 0%nat))
  ∧ globals (cell8 Recorded.out m1).1 = globals m1.
Proof.
  intros m1.
  assert (client (globals (submitted Recorded.out 0%nat)) = Some (mkClient "sk-test"))
    as Hc by (vm_compute; reflexivity).
  assert (job_id (globals (submitted Recorded.out 0%nat)) = Some Recorded.the_job_id)
    as Hid by (vm_compute; reflexivity).
  assert (out_jobs_retrieve Recorded.out (world (submitted Recorded.out 0%nat))
            (mkClient "sk-test") Recorded.the_job_id
          = (8%nat, inr (Recorded.job_at 7))) as Ha1 by (vm_compute; reflexivity).
  assert (out_jobs_retrieve Recorded.out 8%nat (mkClient "sk-test") Recorded.the_job_id
          = (9%nat, inr (Recorded.job_at 8))) as Ha2 by (vm_compute; reflexivity).
  destruct (cell8_poll_rebinds_and_prints Recorded.out (submitted Recorded.out 0%nat)
              (mkClient "sk-test") Recorded.the_job_id 8%nat 9%nat
              (Recorded.job_at 7) (inr (Recorded.job_at 8)) Hc Hid Ha1 Ha2)
    as (_ & _ & _ & Hg & _ & _ & _ & _ & Hsame).
  split; [exact Hg|]. apply Hsame. vm_compute. reflexivity.
Defined.

(** C5, as stated, fails: on the recorded run the status check finds
    [response] bound to the record of the job's creation, whose status is
    [validating_files], and leaves it bound to another record, whose status
    is [running]; and it adds three lines to the output. *)
Lemma cell8_changes_notebook_state :
  let m := submitted Recorded.out 0%nat in
  (cell8 Recorded.out m).2 = Ok tt
  ∧ response (globals m) = Some (RJob (Recorded.job_at 6))
  ∧ response (globals (cell8 Recorded.out m).1) = Some (RJob (Recorded.job_at 7))
  ∧ FineTuningJob.status (Recorded.job_at 6) = validating_files
  ∧ FineTuningJob.status (Recorded.job_at 7) = running
  ∧ globals (cell8 Recorded.out m).1 ≠ globals m
  ∧ stdout (cell8 Recorded.out m).1 =
      stdout m ++ ["Job ID: ftjob-8X1gNa0yukCsdJBiytVKemkf";
                   "Status: running";
                   "Trained Tokens: None"].
Proof.
  intros m.
  assert (response (globals m) = Some (RJob (Recorded.job_at 6))) as Hbefore
    by (vm_compute; reflexivity).
  assert (response (globals (cell8 Recorded.out m).1) = Some (RJob (Recorded.job_at 7)))
    as Hafter by (vm_compute; reflexivity).
  split; [by vm_compute|]. split; [exact Hbefore|]. split; [exact Hafter|].
  split; [reflexivity|]. split; [reflexivity|]. split; [|by vm_compute].
  intros Heq. rewrite Heq, Hbefore in Hafter. discriminate Hafter.
Qed.

(** * Repeated polls *)

(** Where a status sits in the lifecycle
    validating → queued → running → succeeded | failed | cancelled. *)
Definition rank (s : Status) : nat :=
  match s with
  | validating_files => 0
  | queued => 1
  | running => 2
  | succeeded | failed | cancelled => 3
  end.

(** [follows a b]: a job seen in status [a] may later be seen in status [b]. *)
Definition follows (a b : Status) : Prop := a = b ∨ (rank a < rank b)%nat.





Section Polls.
Context {W : Type} (out : Outside W).



End Polls.

Global Instance follows_transitive : Transitive follows.
Proof.
  intros a b c [->|Hab] [->|Hbc]; unfold follows; auto. right. lia.
Qed.













(** A job that moves forward between polls: queued, then running, then
    succeeded with its model. *)
Module Progressing.
Definition job_at (t : nat) : FineTuningJob.t :=
  if decide (t ≤ 6)%nat then FineTuningJob.mk "ftjob-3" validating_files None None
  else if decide (t ≤ 7)%nat then FineTuningJob.mk "ftjob-3" queued None None
  else if decide (t ≤ 8)%nat then FineTuningJob.mk "ftjob-3" running None None
  else FineTuningJob.mk "ftjob-3" succeeded (Some "ft:gpt-3.5-turbo:acme:via-api:3") (Some 9000).
Definition out : Outside nat :=
  Scenario.play (scripted (λ t, inr (job_at t)) (λ _, inr []) no_chat S).
End Progressing.

(** A service that shows the job running and then queued again. *)
Module Reverting.
Definition job_at (t : nat) : FineTuningJob.t :=
  FineTuningJob.mk "ftjob-4" (if decide (t ≤ 7)%nat then running else queued) None None.
Definition out : Outside nat :=
  Scenario.play (scripted (λ t, inr (job_at t)) (λ _, inr []) no_chat S).
End Reverting.




(** * Records the notebook is handed *)

Section Inversion.
Context {W : Type} (out : Outside W).


End Inversion.


(** The cells that are handed a job record: creation (6), status check (8)
    and model name (12). *)
Definition job_cell (cell : Cell) : bool :=
  match cell with
  | Cell6 | Cell8 | Cell12 => true
  | _ => false
  end.


Section Handed.
Context {W : Type} (out : Outside W).

End Handed.




(** * Cell 6: creating the job *)

(** A service that rejects the job: the uploaded ids are not file ids it
    knows. *)
Module Rejecting.
Definition error : ApiError := mkApiError 400 "Invalid file ID: training_file".
Definition out : Outside nat :=
  Scenario.play (scripted (λ _, inl error) (λ _, inr []) no_chat S).
End Rejecting.

(** C8: cell 6 sends the two file ids as they are bound, whatever strings
    they are, next to its fixed model and suffix, and sends no seed,
    hyperparameters or integrations.  It sends them in one request, checks
    nothing beforehand, and an error answered by the service is raised as
    it came, with nothing bound or printed. *)
Theorem cell6_passes_arguments_through {W : Type} (out : Outside W) (m : Machine W)
    (c : Client) (tid vid : string) (w' : W) (ans : ApiError + FineTuningJob.t) :
  client (globals m) = Some c →
  training_file_id (globals m) = Some tid →
  validation_file_id (globals m) = Some vid →
  out_jobs_create out (world m) c
    (JobCreateParams.mk tid (Some vid) "gpt-3.5-turbo" (Some "via-api") None None None)
    = (w', ans) →
  calls (cell6 out m).1 =
    calls m ++ [ReqJobsCreate c
                  (JobCreateParams.mk tid (Some vid) "gpt-3.5-turbo" (Some "via-api")
                     None None None)]
  ∧ world (cell6 out m).1 = w'
  ∧ match ans with
    | inl e =>
        (cell6 out m).2 = Raise (APIError e)
        ∧ globals (cell6 out m).1 = globals m
        ∧ stdout (cell6 out m).1 = stdout m
    | inr j =>
        (cell6 out m).2 = Ok tt
        ∧ response (globals (cell6 out m).1) = Some (RJob j)
        ∧ job_id (globals (cell6 out m).1) = Some (FineTuningJob.id j)
    end.
Proof.
  intros Hc Ht Hv Hans. rewrite (cell6_run out m c tid vid Hc Ht Hv).
  unfold cell6_params. rewrite Hans. destruct ans as [e|j]; simpl; auto.
Qed.

Lemma cell6_passes_arguments_through_witness :
  let m := session Rejecting.out [Cell1; Cell2; Cell4] (boot 0%nat) in
  (cell6 Rejecting.out m).2 = Raise (APIError Rejecting.error)
  ∧ globals (cell6 Rejecting.out m).1 = globals m
  ∧ stdout (cell6 Rejecting.out m).1 = stdout m.
Proof.
  apply (cell6_passes_arguments_through Rejecting.out
           (session Rejecting.out [Cell1; Cell2; Cell4] (boot 0%nat))
           (mkClient "sk-test") "file-xCxjvCDx9BsgQz5m0WGHK0B8"
           "file-L00HnShcn5CWFtGm1IPs2Ncc" 7%nat (inl Rejecting.error)
           eq_refl eq_refl eq_refl eq_refl).
Defined.

(** * Cell 10: the job's events *)

(** Later events first. *)
Definition newest_first (evs : list Event.t) : Prop :=
  Sorted (λ a b, Event.created_at b ≤ Event.created_at a) evs.

(** Earlier events first. *)
Definition chronological (evs : list Event.t) : Prop :=
  Sorted (λ a b, Event.created_at a ≤ Event.created_at b) evs.

(** The last three events printed in the recorded output, as the service
    lists them. *)
Module Training.
Definition page : list Event.t :=
  [ Event.mk 1712000292 "Step 292/300: training loss=0.00";
    Event.mk 1712000291 "Step 291/300: training loss=0.00";
    Event.mk 1712000290 "Step 290/300: training loss=0.00, validation loss=0.00" ].
Definition out : Outside nat :=
  Scenario.play (scripted (λ t, inr (Recorded.job_at t)) (λ _, inr page) no_chat S).
End Training.

(** C6: the page of events is a finite list, and when the service lists it
    newest first, the list cell 10 reverses, keeps in [events] and prints the
    messages of is in chronological order: the events in reverse order of
    arrival are printed in their order of arrival. *)
Theorem cell10_chronological {W : Type} (out : Outside W) (m : Machine W)
    (c : Client) (id : string) (w' : W) (data : list Event.t) :
  client (globals m) = Some c →
  job_id (globals m) = Some id →
  out_jobs_list_events out (world m) c id = (w', inr data) →
  newest_first data →
  (cell10 out m).2 = Ok tt
  ∧ events (globals (cell10 out m).1) = Some (reverse data)
  ∧ response (globals (cell10 out m).1) = Some (RPage (reverse data))
  ∧ chronological (reverse data)
  ∧ stdout (cell10 out m).1 = stdout m ++ (Event.message <$> reverse data)
  ∧ List.length (reverse data) = List.length data
  ∧ ∀ arrived, data = reverse arrived →
      events (globals (cell10 out m).1) = Some arrived
      ∧ stdout (cell10 out m).1 = stdout m ++ (Event.message <$> arrived).
Proof.
  intros Hc Hid Hans Hnew. rewrite (cell10_run out m c id Hc Hid), Hans. simpl.
  rewrite after_loop_last.
  assert (events (match last (reverse data) with
                  | Some e =>
                      set_event e
                        (set_events (reverse data)
                           (set_response (RPage (reverse data)) (globals m)))
                  | None =>
                      set_events (reverse data)
                        (set_response (RPage (reverse data)) (globals m))
                  end) = Some (reverse data)) as Hev
    by (by destruct (last (reverse data))).
  split; [done|]. split; [done|].
  split; [by destruct (last (reverse data))|].
  split; [unfold chronological; by apply Sorted_reverse|].
  split; [done|]. split; [apply length_reverse|].
  intros arrived ->. rewrite reverse_involutive in *. by split.
Qed.

Lemma training_page_newest_first : newest_first Training.page.
Proof. repeat constructor; simpl; lia. Qed.

Lemma cell10_chronological_witness :
  stdout (cell10 Training.out (submitted Training.out 0%nat)).1 =
  stdout (submitted Training.out 0%nat) ++
  [ "Step 290/300: training loss=0.00, validation loss=0.00";
    "Step 291/300: training loss=0.00";
    "Step 292/300: training loss=0.00" ].
Proof.
  assert (client (globals (submitted Training.out 0%nat)) = Some (mkClient "sk-test"))
    as Hc by (vm_compute; reflexivity).
  assert (job_id (globals (submitted Training.out 0%nat)) = Some Recorded.the_job_id)
    as Hid by (vm_compute; reflexivity).
  assert (out_jobs_list_events Training.out (world (submitted Training.out 0%nat))
            (mkClient "sk-test") Recorded.the_job_id = (8%nat, inr Training.page))
    as Hans by (vm_compute; reflexivity).
  destruct (cell10_chronological Training.out (submitted Training.out 0%nat)
              (mkClient "sk-test") Recorded.the_job_id 8%nat Training.page
              Hc Hid Hans training_page_newest_first)
    as (_ & _ & _ & _ & Hout & _).
  exact Hout.
Defined.

(** * Cell 14: trying the model *)

(** A chat answer without choices, after a finished job. *)
Module NoChoice.
Definition out : Outside nat :=
  Scenario.play (scripted (λ _, inr Finished.job) (λ _, inr [])
                   (λ _, inr (ChatCompletion.mk [])) S).
Definition ready : Machine nat :=
  session out [Cell1; Cell2; Cell4; Cell6; Cell12] (boot 0%nat).
End NoChoice.

(** C10: cell 14 indexes [choices[0]] with no test before it and no handler
    around it.  When the service answers with a completion, the cell raises
    [IndexError] exactly when the list of choices is empty, and otherwise
    prints the first choice's content. *)
Theorem cell14_empty_choices {W : Type} (out : Outside W) (m : Machine W)
    (c : Client) (model : option string) (w' : W) (r : ChatCompletion.t) :
  client (globals m) = Some c →
  fine_tuned_model_id (globals m) = Some model →
  out_chat_create out (world m) c (ChatParams.mk model cell14_messages 0 500) = (w', inr r) →
  (ChatCompletion.choices r = [] →
     (cell14 out m).2 = Raise (IndexError "list index out of range")
     ∧ stdout (cell14 out m).1 = stdout m)
  ∧ ((cell14 out m).2 = Raise (IndexError "list index out of range")
     ↔ ChatCompletion.choices r = [])
  ∧ (∀ choice rest, ChatCompletion.choices r = choice :: rest →
       (cell14 out m).2 = Ok tt
       ∧ stdout (cell14 out m).1 =
           stdout m ++ [str_opt (λ s, s)
                          (ChatCompletion.content (ChatCompletion.message choice))]).
Proof.
  intros Hc Hid Hans. rewrite (cell14_run out m c model Hc Hid). simpl. rewrite Hans.
  destruct (ChatCompletion.choices r) as [|choice rest]; simpl.
  - split; [done|]. split; [done|]. intros ?? Heq. discriminate Heq.
  - split; [intros Heq; discriminate Heq|].
    split; [split; intros Heq; discriminate Heq|].
    intros ?? Heq. by injection Heq as <- _.
Qed.

Lemma cell14_empty_choices_witness :
  (cell14 NoChoice.out NoChoice.ready).2 = Raise (IndexError "list index out of range")
  ∧ stdout (cell14 NoChoice.out NoChoice.ready).1 = stdout NoChoice.ready.
Proof.
  apply (cell14_empty_choices NoChoice.out NoChoice.ready (mkClient "sk-test")
           (Some "ft:gpt-3.5-turbo:acme:via-api:2") 9%nat (ChatCompletion.mk [])
           eq_refl eq_refl eq_refl).
  reflexivity.
Defined.

(** * Cell 4 and the validation file *)

Section Upload.
Context {W : Type} (out : Outside W).

(** Cell 4, step by step, once its three globals are bound.  A file object
    is bound as soon as its file is open and is closed by the time the cell
    ends, however it ends. *)
Lemma cell4_run (m : Machine W) (c : Client) (tn vn : string) :
  training_file_name (globals m) = Some tn →
  validation_file_name (globals m) = Some vn →
  client (globals m) = Some c →
  cell4 out m =
    let (w1, f1) := out_open out (world m) tn in
    match f1 with
    | None =>
        (mkMachine w1 (globals m) (stdout m) (calls m ++ [ReqOpen tn]),
         Raise (FileNotFoundError tn))
    | Some tb =>
        let (w2, a1) := out_files_create out w1 c tb "fine-tune" in
        let log1 := calls m ++ [ReqOpen tn; ReqFilesCreate c tb "fine-tune"] in
        let k0 := set_training_fd (FileHandle.mk tn tb true) (globals m) in
        match a1 with
        | inl e => (mkMachine w2 k0 (stdout m) log1, Raise (APIError e))
        | inr r1 =>
            let k1 := set_training_file_id (FileObject.id r1)
                        (set_training_response r1 k0) in
            let (w3, f2) := out_open out w2 vn in
            match f2 with
            | None =>
                (mkMachine w3 k1 (stdout m) (log1 ++ [ReqOpen vn]),
                 Raise (FileNotFoundError vn))
            | Some vb =>
                let (w4, a2) := out_files_create out w3 c vb "fine-tune" in
                let log2 := log1 ++ [ReqOpen vn; ReqFilesCreate c vb "fine-tune"] in
                let k2 := set_validation_fd (FileHandle.mk vn vb true) k1 in
                match a2 with
                | inl e => (mkMachine w4 k2 (stdout m) log2, Raise (APIError e))
                | inr r2 =>
                    (mkMachine w4
                       (set_validation_file_id (FileObject.id r2)
                          (set_validation_response r2 k2))
                       (stdout m ++ ["Training file ID: " +:+ FileObject.id r1;
                                     "Validation file ID: " +:+ FileObject.id r2])
                       log2,
                     Ok tt)
                end
            end
        end
    end.
Proof.
  intros Ht Hv Hc. unfold cell4, open_rb, files_create. unfold_monad.
  rewrite Ht. simpl.
  destruct (out_open out (world m) tn) as [w1 [tb|]]; simpl; [|done].
  rewrite Hc. simpl.
  destruct (out_files_create out w1 c tb "fine-tune") as [w2 [e|r1]]; simpl;
    [by rewrite <- !app_assoc|].
  rewrite Hv. simpl.
  destruct (out_open out w2 vn) as [w3 [vb|]]; simpl; [|by rewrite <- !app_assoc].
  rewrite Hc. simpl.
  destruct (out_files_create out w3 c vb "fine-tune") as [w4 [e|r2]]; simpl;
    by rewrite <- !app_assoc.
Qed.

End Upload.

(** ** What every cell keeps true of the log of calls *)


Section LogInvariant.
Context {W : Type} (I : Request → bool).

Definition log_ok (m : Machine W) : Prop := Forall (λ r, I r = true) (calls m).

(** A statement that leaves the log within [I] when it finds it so. *)
Definition keeps_log {A : Type} (x : M W A) : Prop :=
  ∀ m, log_ok m → log_ok (x m).1.

Lemma keeps_ret {A : Type} (a : A) : keeps_log (ret a).
Proof. by intros m. Qed.

Lemma keeps_raise {A : Type} (e : PyError) : keeps_log (@raise W A e).
Proof. by intros m. Qed.

Lemma keeps_load {A : Type} (name : string) (var : Kernel → option A) :
  keeps_log (load name var).
Proof. intros m Hm. unfold load. by destruct (var (globals m)). Qed.

Lemma keeps_store (upd : Kernel → Kernel) : keeps_log (store upd).
Proof. by intros m. Qed.

Lemma keeps_print (line : string) : keeps_log (print line).
Proof. by intros m. Qed.

Lemma keeps_bind {A B : Type} (x : M W A) (f : A → M W B) :
  keeps_log x → (∀ a, keeps_log (f a)) → keeps_log (x <- x ;; f x).
Proof.
  intros Hx Hf m Hm. unfold bind. specialize (Hx m Hm).
  destruct (x m) as [m1 [a|e]]; simpl in *; [by apply Hf|done].
Qed.

Lemma keeps_call {A : Type} (r : Request) (op : W → W * A) :
  I r = true → keeps_log (call r op).
Proof.
  intros Hr m Hm. unfold call, log_ok in *. destruct (op (world m)) as [w' a]. simpl.
  apply Forall_app. split; [done|]. by constructor.
Qed.

Lemma keeps_api {A : Type} (r : Request) (op : W → W * (ApiError + A)) :
  I r = true → keeps_log (api r op).
Proof.
  intros Hr. unfold api. apply keeps_bind; [by apply keeps_call|].
  intros [e|a]; [apply keeps_raise|apply keeps_ret].
Qed.

Lemma keeps_finally {A : Type} (block : M W A) (cleanup : Kernel → Kernel) :
  keeps_log block → keeps_log (finally block cleanup).
Proof.
  intros Hx m Hm. unfold finally. specialize (Hx m Hm). by destruct (block m).
Qed.

Lemma keeps_import (out : Outside W) (package : string) (bind : Kernel → Kernel) :
  keeps_log (import_ out package bind).
Proof.
  intros m Hm. unfold import_. by destruct (out_importable out (world m) package).
Qed.
End LogInvariant.

(** Splits a cell into its statements. *)
Ltac keeps_step :=
  first
    [ apply keeps_bind; [|intros ?]
    | apply keeps_ret | apply keeps_raise | apply keeps_load | apply keeps_store
    | apply keeps_print | apply keeps_import | apply keeps_finally
    | apply keeps_api; reflexivity | apply keeps_call; reflexivity
    | match goal with
      | |- keeps_log _ (match ?x with _ => _ end) => destruct x
      end ].

Section CellsKeepLog.
Context {W : Type} (out : Outside W).

Lemma print_messages_keeps (I : Request → bool) (evs : list Event.t) :
  keeps_log I (print_messages (W := W) evs).
Proof. induction evs; simpl; repeat keeps_step. done. Qed.


End CellsKeepLog.

(** A disk without the validation file. *)
Module NoValidationFile.
Definition scenario : Scenario.t :=
  Scenario.mk
    (λ _, true)
    (λ name, if decide (name = "OPENAI_API_KEY") then Some "sk-test" else None)
    (λ path, if decide (path = "data/review_finetune_training.jsonl") then Some "t"
             else None)
    (λ _, inr (FileObject.mk "file-xCxjvCDx9BsgQz5m0WGHK0B8"))
    (λ t, inr (Recorded.job_at t)) (λ _, inr []) no_chat S.
Definition out : Outside nat := Scenario.play scenario.
Definition ready : Machine nat := session out [Cell1; Cell2] (boot 0%nat).
End NoValidationFile.



(** * Beyond the lifecycle: how the cells share the kernel *)

(** ** Which globals a cell rebinds *)

(** The names of the notebook's globals. *)
Inductive Var : Type :=
  | v_os | v_pd | v_OpenAI | v_load_dotenv | v_client | v_data_folder
  | v_training_file_name | v_validation_file_name | v_training_fd
  | v_training_response | v_training_file_id | v_validation_fd
  | v_validation_response | v_validation_file_id | v_response | v_job_id
  | v_events | v_event | v_fine_tuned_model_id | v_test_messages.

(** Two kernels agree on a name: both leave it unbound, or both bind it to
    the same value. *)
Definition same_var (v : Var) (k k' : Kernel) : Prop :=
  match v with
  | v_os => os k = os k'
  | v_pd => pd k = pd k'
  | v_OpenAI => OpenAI k = OpenAI k'
  | v_load_dotenv => load_dotenv k = load_dotenv k'
  | v_client => client k = client k'
  | v_data_folder => data_folder k = data_folder k'
  | v_training_file_name => training_file_name k = training_file_name k'
  | v_validation_file_name => validation_file_name k = validation_file_name k'
  | v_training_fd => training_fd k = training_fd k'
  | v_training_response => training_response k = training_response k'
  | v_training_file_id => training_file_id k = training_file_id k'
  | v_validation_fd => validation_fd k = validation_fd k'
  | v_validation_response => validation_response k = validation_response k'
  | v_validation_file_id => validation_file_id k = validation_file_id k'
  | v_response => response k = response k'
  | v_job_id => job_id k = job_id k'
  | v_events => events k = events k'
  | v_event => event k = event k'
  | v_fine_tuned_model_id => fine_tuned_model_id k = fine_tuned_model_id k'
  | v_test_messages => test_messages k = test_messages k'
  end.

(** Whether a name is bound. *)
Definition is_bound (v : Var) (k : Kernel) : bool :=
  match v with
  | v_os => bool_decide (is_Some (os k))
  | v_pd => bool_decide (is_Some (pd k))
  | v_OpenAI => bool_decide (is_Some (OpenAI k))
  | v_load_dotenv => bool_decide (is_Some (load_dotenv k))
  | v_client => bool_decide (is_Some (client k))
  | v_data_folder => bool_decide (is_Some (data_folder k))
  | v_training_file_name => bool_decide (is_Some (training_file_name k))
  | v_validation_file_name => bool_decide (is_Some (validation_file_name k))
  | v_training_fd => bool_decide (is_Some (training_fd k))
  | v_training_response => bool_decide (is_Some (training_response k))
  | v_training_file_id => bool_decide (is_Some (training_file_id k))
  | v_validation_fd => bool_decide (is_Some (validation_fd k))
  | v_validation_response => bool_decide (is_Some (validation_response k))
  | v_validation_file_id => bool_decide (is_Some (validation_file_id k))
  | v_response => bool_decide (is_Some (response k))
  | v_job_id => bool_decide (is_Some (job_id k))
  | v_events => bool_decide (is_Some (events k))
  | v_event => bool_decide (is_Some (event k))
  | v_fine_tuned_model_id => bool_decide (is_Some (fine_tuned_model_id k))
  | v_test_messages => bool_decide (is_Some (test_messages k))
  end.

(** The names each cell assigns to, read off its import, assignment, [with]
    and [for] statements. *)
Definition rebinds (cell : Cell) (v : Var) : bool :=
  match cell, v with
  | Cell1, (v_os | v_pd | v_OpenAI | v_load_dotenv | v_client) => true
  | Cell2, (v_data_folder | v_training_file_name | v_validation_file_name) => true
  | Cell4, (v_training_fd | v_training_response | v_training_file_id
            | v_validation_fd | v_validation_response | v_validation_file_id) => true
  | Cell6, (v_response | v_job_id) => true
  | Cell8, v_response => true
  | Cell10, (v_response | v_events | v_event) => true
  | Cell12, (v_response | v_fine_tuned_model_id) => true
  | Cell14, (v_test_messages | v_response) => true
  | _, _ => false
  end.

Lemma same_var_refl (v : Var) (k : Kernel) : same_var v k k.
Proof. by destruct v. Qed.

Lemma same_var_trans (v : Var) (k1 k2 k3 : Kernel) :
  same_var v k1 k2 → same_var v k2 k3 → same_var v k1 k3.
Proof. destruct v; simpl; congruence. Qed.

Section Frame.
Context {W : Type} (R : Kernel → Kernel → Prop).
Context (R_refl : ∀ k, R k k) (R_trans : ∀ k1 k2 k3, R k1 k2 → R k2 k3 → R k1 k3).

(** A statement whose effect on the globals stays within [R]. *)
Definition kernel_step {A : Type} (x : M W A) : Prop :=
  ∀ m, R (globals m) (globals (x m).1).

Lemma kernel_step_ret {A : Type} (a : A) : kernel_step (ret a).
Proof. intros m. apply R_refl. Qed.

Lemma kernel_step_raise {A : Type} (e : PyError) : kernel_step (@raise W A e).
Proof. intros m. apply R_refl. Qed.

Lemma kernel_step_load {A : Type} (name : string) (var : Kernel → option A) :
  kernel_step (load name var).
Proof. intros m. unfold load. destruct (var (globals m)); apply R_refl. Qed.

Lemma kernel_step_print (line : string) : kernel_step (print line).
Proof. intros m. apply R_refl. Qed.

Lemma kernel_step_store (upd : Kernel → Kernel) :
  (∀ k, R k (upd k)) → kernel_step (store upd).
Proof. intros Hupd m. apply Hupd. Qed.

Lemma kernel_step_call {A : Type} (r : Request) (op : W → W * A) :
  kernel_step (call r op).
Proof. intros m. unfold call. destruct (op (world m)). apply R_refl. Qed.

Lemma kernel_step_bind {A B : Type} (x : M W A) (f : A → M W B) :
  kernel_step x → (∀ a, kernel_step (f a)) → kernel_step (a <- x ;; f a).
Proof.
  intros Hx Hf m. unfold bind. specialize (Hx m).
  destruct (x m) as [m1 [a|e]]; simpl in *; [|done].
  eapply R_trans; [exact Hx|apply Hf].
Qed.

Lemma kernel_step_api {A : Type} (r : Request) (op : W → W * (ApiError + A)) :
  kernel_step (api r op).
Proof.
  unfold api. apply kernel_step_bind; [apply kernel_step_call|].
  intros [e|a]; [apply kernel_step_raise|apply kernel_step_ret].
Qed.

Lemma kernel_step_finally {A : Type} (block : M W A) (cleanup : Kernel → Kernel) :
  kernel_step block → (∀ k, R k (cleanup k)) → kernel_step (finally block cleanup).
Proof.
  intros Hx Hc m. unfold finally. specialize (Hx m).
  destruct (block m) as [m1 r]. simpl in *. eapply R_trans; [exact Hx|apply Hc].
Qed.

Lemma kernel_step_import (out : Outside W) (package : string) (bind : Kernel → Kernel) :
  (∀ k, R k (bind k)) → kernel_step (import_ out package bind).
Proof.
  intros Hb m. unfold import_.
  destruct (out_importable out (world m) package); [apply Hb|apply R_refl].
Qed.

Lemma kernel_step_print_messages (evs : list Event.t) :
  (∀ e k, R k (set_event e k)) → kernel_step (print_messages (W := W) evs).
Proof.
  intros He. induction evs; simpl; [apply kernel_step_ret|].
  apply kernel_step_bind; [apply kernel_step_store, He|intros _].
  apply kernel_step_bind; [apply kernel_step_load|intros ev].
  apply kernel_step_bind; [apply kernel_step_print|done].
Qed.
End Frame.

(** Splits a cell into its statements; what is left is one goal per
    assignment. *)
Ltac kernel_steps :=
  repeat first
    [ apply kernel_step_bind; [assumption| |intros ?]
    | solve [apply kernel_step_ret; assumption]
    | solve [apply kernel_step_raise; assumption]
    | solve [apply kernel_step_load; assumption]
    | solve [apply kernel_step_print; assumption]
    | solve [apply kernel_step_api; assumption]
    | solve [apply kernel_step_call; assumption]
    | apply kernel_step_print_messages; [assumption|assumption|]
    | apply kernel_step_finally; [assumption| |]
    | apply kernel_step_import; [assumption|]
    | apply kernel_step_store
    | match goal with
      | |- kernel_step _ (match ?x with _ => _ end) => destruct x
      end ].

Ltac unfold_cells :=
  unfold cell1, cell2, cell4, cell6, cell8, cell10, cell12, cell14,
    dotenv_load_dotenv, os_environ_get, open_rb, files_create, jobs_create, jobs_retrieve,
    jobs_list_events, chat_completions_create, print2.

(** A cell leaves a global it does not assign to as it found it. *)
Lemma run_cell_keeps_other_names {W : Type} (out : Outside W) (cell : Cell) (v : Var)
    (m : Machine W) :
  rebinds cell v = false → same_var v (globals m) (globals (run_cell out cell m).1).
Proof.
  intros Hv. revert m.
  change (kernel_step (same_var v) (run_cell out cell)).
  pose proof (same_var_refl v) as Hrefl. pose proof (same_var_trans v) as Htrans.
  destruct cell; destruct v; try discriminate Hv; simpl; unfold_cells;
    kernel_steps; intros; reflexivity.
Qed.


(** X1 (frame): a cell leaves every global it does not assign to as it found
    it, whether it completes or raises; and no cell unbinds a name. *)
Theorem cell_rebinds_only_its_names {W : Type} (out : Outside W) (cell : Cell) (v : Var)
    (m : Machine W) :
  (rebinds cell v = false →
     same_var v (globals m) (globals (run_cell out cell m).1))
  ∧ (is_bound v (globals m) = true →
     is_bound v (globals (run_cell out cell m).1) = true).
Proof.
  split.
  - apply run_cell_keeps_other_names.
  - revert m.
    change (kernel_step (λ k k', is_bound v k = true → is_bound v k' = true)
              (run_cell out cell)).
    assert (∀ k, is_bound v k = true → is_bound v k = true) as Hrefl by done.
    assert (∀ k1 k2 k3, (is_bound v k1 = true → is_bound v k2 = true) →
              (is_bound v k2 = true → is_bound v k3 = true) →
              is_bound v k1 = true → is_bound v k3 = true) as Htrans by auto.
    destruct cell; destruct v; simpl; unfold_cells;
      kernel_steps; intros; simpl; intros;
      first [assumption | reflexivity | apply bool_decide_eq_true; by eexists].
Qed.

Lemma cell_rebinds_only_its_names_witness :
  same_var v_job_id (globals (submitted Recorded.out 0%nat))
    (globals (run_cell Recorded.out Cell8 (submitted Recorded.out 0%nat)).1).
Proof.
  destruct (cell_rebinds_only_its_names Recorded.out Cell8 v_job_id
              (submitted Recorded.out 0%nat)) as [Hsame _].
  apply Hsame. reflexivity.
Defined.

(** ** What a cell sends outside *)

(** The calls each cell can make, with the arguments its code fixes. *)
Definition may_send (cell : Cell) (r : Request) : bool :=
  match cell, r with
  | Cell1, ReqLoadDotenv => true
  | Cell1, ReqGetenv name => String.eqb name "OPENAI_API_KEY"
  | Cell4, ReqOpen _ => true
  | Cell4, ReqFilesCreate _ _ purpose => String.eqb purpose "fine-tune"
  | Cell6, ReqJobsCreate _ p =>
      String.eqb (JobCreateParams.model p) "gpt-3.5-turbo"
      && bool_decide (JobCreateParams.suffix p = Some "via-api")
      && bool_decide (is_Some (JobCreateParams.validation_file p))
      && bool_decide (JobCreateParams.seed p = None)
      && bool_decide (JobCreateParams.hyperparameters p = None)
      && bool_decide (JobCreateParams.integrations p = None)
  | (Cell8 | Cell12), ReqJobsRetrieve _ _ => true
  | Cell10, ReqJobsListEvents _ _ => true
  | Cell14, ReqChatCreate _ p =>
      bool_decide (ChatParams.temperature p = 0)
      && bool_decide (ChatParams.max_tokens p = 500)
  | _, _ => false
  end.

(** The most calls one run of a cell makes. *)
Definition most_calls (cell : Cell) : nat :=
  match cell with
  | Cell1 => 2
  | Cell2 => 0
  | Cell4 => 4
  | _ => 1
  end.

Section Sends.
Context {W : Type} (I : Request → bool).

(** A statement that only adds calls to the log, at most [n] of them and
    all within [I]. *)
Definition sends {A : Type} (n : nat) (x : M W A) : Prop :=
  ∀ m, ∃ extra,
    calls (x m).1 = calls m ++ extra
    ∧ Forall (λ r, I r = true) extra
    ∧ (List.length extra ≤ n)%nat.

Lemma sends_weaken {A : Type} (n n' : nat) (x : M W A) :
  (n ≤ n')%nat → sends n x → sends n' x.
Proof.
  intros Hn Hx m. destruct (Hx m) as (extra & Heq & Hall & Hlen).
  exists extra. repeat split; [done..|lia].
Qed.

Lemma sends_silent {A : Type} (x : M W A) :
  (∀ m, calls (x m).1 = calls m) → sends 0 x.
Proof.
  intros Hx m. exists []. rewrite Hx, app_nil_r. repeat split; [constructor|done].
Qed.

Lemma sends_ret {A : Type} (a : A) : sends 0 (ret a).
Proof. by apply sends_silent. Qed.

Lemma sends_raise {A : Type} (e : PyError) : sends 0 (@raise W A e).
Proof. by apply sends_silent. Qed.

Lemma sends_load {A : Type} (name : string) (var : Kernel → option A) :
  sends 0 (load name var).
Proof. apply sends_silent. intros m. unfold load. by destruct (var (globals m)). Qed.

Lemma sends_store (upd : Kernel → Kernel) : sends 0 (store upd).
Proof. by apply sends_silent. Qed.

Lemma sends_print (line : string) : sends 0 (print line).
Proof. by apply sends_silent. Qed.

Lemma sends_call {A : Type} (r : Request) (op : W → W * A) :
  I r = true → sends 1 (call r op).
Proof.
  intros Hr m. exists [r]. unfold call. destruct (op (world m)) as [w' a]. simpl.
  repeat split; [by repeat constructor|done].
Qed.

Lemma sends_bind {A B : Type} (n1 n2 : nat) (x : M W A) (f : A → M W B) :
  sends n1 x → (∀ a, sends n2 (f a)) → sends (n1 + n2) (a <- x ;; f a).
Proof.
  intros Hx Hf m. unfold bind. destruct (Hx m) as (e1 & Heq1 & Hall1 & Hlen1).
  destruct (x m) as [m1 [a|e]]; simpl in *.
  - destruct (Hf a m1) as (e2 & Heq2 & Hall2 & Hlen2).
    exists (e1 ++ e2). rewrite Heq2, Heq1, app_assoc.
    repeat split; [by apply Forall_app|]. rewrite length_app. lia.
  - exists e1. repeat split; [done..|lia].
Qed.

Lemma sends_api {A : Type} (r : Request) (op : W → W * (ApiError + A)) :
  I r = true → sends 1 (api r op).
Proof.
  intros Hr. unfold api. apply (sends_bind 1 0); [by apply sends_call|].
  intros [e|a]; [apply sends_raise|apply sends_ret].
Qed.

Lemma sends_finally {A : Type} (n : nat) (block : M W A) (cleanup : Kernel → Kernel) :
  sends n block → sends n (finally block cleanup).
Proof.
  intros Hx m. unfold finally. specialize (Hx m). by destruct (block m).
Qed.

Lemma sends_import (out : Outside W) (package : string) (bind : Kernel → Kernel) :
  sends 0 (import_ out package bind).
Proof.
  apply sends_silent. intros m. unfold import_.
  by destruct (out_importable out (world m) package).
Qed.

Lemma sends_print_messages (evs : list Event.t) :
  sends 0 (print_messages (W := W) evs).
Proof.
  induction evs; simpl; [apply sends_ret|].
  apply (sends_bind 0 0); [apply sends_store|intros _].
  apply (sends_bind 0 0); [apply sends_load|intros ev].
  apply (sends_bind 0 0); [apply sends_print|done].
Qed.
End Sends.

(** Splits a cell into its statements, adding up the calls. *)
Ltac sends_steps :=
  repeat first
    [ eapply sends_bind; [|intros ?]
    | apply sends_ret | apply sends_raise | apply sends_load | apply sends_store
    | apply sends_print | apply sends_print_messages
    | apply sends_import | apply sends_finally
    | apply sends_api; reflexivity | apply sends_call; reflexivity
    | match goal with
      | |- sends _ _ (match ?x with _ => _ end) => destruct x
      end ].

(** X2 (calls of a cell): one run of a cell only adds calls to the log, no
    more than [most_calls] of them, each of the kind and with the fixed
    arguments its code has: cell 2 calls nothing, cells 8 and 12 only
    retrieve the job, cell 10 only lists events. *)
Theorem cell_sends_only_its_calls {W : Type} (out : Outside W) (cell : Cell)
    (m : Machine W) :
  ∃ extra,
    calls (run_cell out cell m).1 = calls m ++ extra
    ∧ Forall (λ r, may_send cell r = true) extra
    ∧ (List.length extra ≤ most_calls cell)%nat.
Proof.
  revert m. change (sends (may_send cell) (most_calls cell) (run_cell out cell)).
  destruct cell; simpl; unfold_cells;
    (eapply sends_weaken; cycle 1; [sends_steps|simpl; lia]).
Qed.

(** The calls some cell of the notebook can make. *)
Definition notebook_request (r : Request) : bool :=
  existsb (λ cell, may_send cell r)
    [Cell1; Cell2; Cell4; Cell6; Cell8; Cell10; Cell12; Cell14].

Lemma run_cell_keeps_notebook_requests {W : Type} (out : Outside W) (cell : Cell) :
  keeps_log notebook_request (run_cell out cell).
Proof.
  destruct cell; simpl; unfold_cells; repeat keeps_step; apply print_messages_keeps.
Qed.

Lemma session_notebook_requests {W : Type} (out : Outside W) (cs : list Cell)
    (m : Machine W) :
  log_ok notebook_request m → log_ok notebook_request (session out cs m).
Proof.
  revert m. induction cs as [|cell cs IH]; intros m Hm; [done|].
  simpl. apply IH. by apply run_cell_keeps_notebook_requests.
Qed.

(** X3 (fixed arguments): whatever cells are run from a fresh kernel, in
    whatever order and however often, every upload in the log has purpose
    "fine-tune", every job creation asks for model "gpt-3.5-turbo" with
    suffix "via-api" and carries no seed, hyperparameters or integrations,
    and every chat request has temperature 0 and max_tokens 500. *)
Theorem session_requests_have_fixed_arguments {W : Type} (out : Outside W)
    (cs : list Cell) (w : W) :
  (∀ c file purpose,
     ReqFilesCreate c file purpose ∈ calls (session out cs (boot w)) →
     purpose = "fine-tune")
  ∧ (∀ c p,
       ReqJobsCreate c p ∈ calls (session out cs (boot w)) →
       JobCreateParams.model p = "gpt-3.5-turbo"
       ∧ JobCreateParams.suffix p = Some "via-api"
       ∧ JobCreateParams.seed p = None
       ∧ JobCreateParams.hyperparameters p = None
       ∧ JobCreateParams.integrations p = None)
  ∧ (∀ c p,
       ReqChatCreate c p ∈ calls (session out cs (boot w)) →
       ChatParams.temperature p = 0 ∧ ChatParams.max_tokens p = 500).
Proof.
  assert (log_ok notebook_request (session out cs (boot w)))
    as Hall by (apply session_notebook_requests; constructor).
  unfold log_ok in Hall. rewrite Forall_forall in Hall.
  split; [|split].
  - intros c file purpose Hin. specialize (Hall _ Hin).
    unfold notebook_request in Hall. simpl in Hall.
    rewrite !orb_false_r in Hall. by apply String.eqb_eq.
  - intros c p Hin. specialize (Hall _ Hin).
    unfold notebook_request in Hall. simpl in Hall.
    rewrite !orb_false_r in Hall.
    repeat (apply andb_true_iff in Hall as [Hall ?]).
    repeat match goal with
           | H : bool_decide _ = true |- _ => apply bool_decide_eq_true in H
           end.
    apply String.eqb_eq in Hall. done.
  - intros c p Hin. specialize (Hall _ Hin).
    unfold notebook_request in Hall. simpl in Hall.
    rewrite !orb_false_r in Hall.
    apply andb_true_iff in Hall as [H1 H2].
    by apply bool_decide_eq_true in H1, H2.
Qed.

Lemma session_requests_have_fixed_arguments_witness :
  let log := calls (session Recorded.out [Cell1; Cell2; Cell4; Cell6] (boot 0%nat)) in
  let p := cell6_params "file-xCxjvCDx9BsgQz5m0WGHK0B8" "file-L00HnShcn5CWFtGm1IPs2Ncc" in
  ReqJobsCreate (mkClient "sk-test") p ∈ log
  ∧ JobCreateParams.hyperparameters p = None.
Proof.
  intros log p.
  assert (ReqJobsCreate (mkClient "sk-test") p ∈ log) as Hin.
  { apply (list_elem_of_lookup_2 _ 6%nat). vm_compute. reflexivity. }
  split; [exact Hin|].
  destruct (session_requests_have_fixed_arguments Recorded.out
              [Cell1; Cell2; Cell4; Cell6] 0%nat) as (_ & Hcreate & _).
  apply (Hcreate _ _ Hin).
Defined.

(** ** What a cell can raise *)




Section Raises.
Context {W : Type} (out : Outside W).








End Raises.



(** * From one cell to the next *)

Section Handover.
Context {W : Type} (out : Outside W).

End Handover.

(** X5 (upload to creation): when both files open and both uploads are
    accepted, cell 4 completes with [training_file_id] bound to the id the
    service gave the first upload (the bytes of the training file) and
    [validation_file_id] to the id it gave the second (the bytes of the
    validation file), and cell 6 run next asks for a job on exactly those
    two files, in those two roles. *)
Theorem job_is_created_on_uploaded_files {W : Type} (out : Outside W) (m : Machine W)
    (c : Client) (tn vn tb vb : string) (w1 w2 w3 w4 : W) (r1 r2 : FileObject.t) :
  training_file_name (globals m) = Some tn →
  validation_file_name (globals m) = Some vn →
  client (globals m) = Some c →
  out_open out (world m) tn = (w1, Some tb) →
  out_files_create out w1 c tb "fine-tune" = (w2, inr r1) →
  out_open out w2 vn = (w3, Some vb) →
  out_files_create out w3 c vb "fine-tune" = (w4, inr r2) →
  (cell4 out m).2 = Ok tt
  ∧ world (cell4 out m).1 = w4
  ∧ training_file_id (globals (cell4 out m).1) = Some (FileObject.id r1)
  ∧ validation_file_id (globals (cell4 out m).1) = Some (FileObject.id r2)
  ∧ calls (cell4 out m).1 =
      calls m ++ [ReqOpen tn; ReqFilesCreate c tb "fine-tune";
                  ReqOpen vn; ReqFilesCreate c vb "fine-tune"]
  ∧ calls (cell6 out (cell4 out m).1).1 =
      calls (cell4 out m).1
      ++ [ReqJobsCreate c
            (JobCreateParams.mk (FileObject.id r1) (Some (FileObject.id r2))
               "gpt-3.5-turbo" (Some "via-api") None None None)].
Proof.
  intros Ht Hv Hc Ho1 Hu1 Ho2 Hu2.
  rewrite (cell4_run out m c tn vn Ht Hv Hc), Ho1, Hu1, Ho2, Hu2. simpl.
  split; [done|]. split; [done|]. split; [done|]. split; [done|].
  split; [by rewrite <- app_assoc|].
  rewrite (cell6_run out _ c (FileObject.id r1) (FileObject.id r2)); [|done..].
  simpl. destruct (out_jobs_create out w4 c _) as [w' [e|j]]; reflexivity.
Qed.

Lemma job_is_created_on_uploaded_files_witness :
  let m := session Recorded.out [Cell1; Cell2] (boot 0%nat) in
  calls (cell6 Recorded.out (cell4 Recorded.out m).1).1 =
    calls (cell4 Recorded.out m).1
    ++ [ReqJobsCreate (mkClient "sk-test")
          (JobCreateParams.mk "file-xCxjvCDx9BsgQz5m0WGHK0B8"
             (Some "file-L00HnShcn5CWFtGm1IPs2Ncc")
             "gpt-3.5-turbo" (Some "via-api") None None None)].
Proof.
  intros m.
  refine (proj2 (proj2 (proj2 (proj2 (proj2
            (job_is_created_on_uploaded_files Recorded.out m (mkClient "sk-test")
               "data/review_finetune_training.jsonl"
               "data/review_finetune_validation.jsonl" "t" "v"
               3%nat 4%nat 5%nat 6%nat
               (FileObject.mk "file-xCxjvCDx9BsgQz5m0WGHK0B8")
               (FileObject.mk "file-L00HnShcn5CWFtGm1IPs2Ncc")
               _ _ _ _ _ _ _))))));
    vm_compute; reflexivity.
Defined.







(** * Sessions that skip a step *)

(** What stays true of a machine as long as cell 1 has not run: [os] and
    [client] are unbound, so cell 2 has bound no file name; nothing has been
    printed, nothing has left the notebook, and the world is as it was. *)
Definition unstarted {W : Type} (w : W) (m : Machine W) : Prop :=
  os (globals m) = None
  ∧ client (globals m) = None
  ∧ training_file_name (globals m) = None
  ∧ world m = w
  ∧ stdout m = []
  ∧ calls m = [].

(** The name whose absence stops each cell on such a machine. *)
Definition first_missing (cell : Cell) : string :=
  match cell with
  | Cell2 => "os"
  | Cell4 => "training_file_name"
  | _ => "client"
  end.

Section NoClient.
Context {W : Type} (out : Outside W).

(** The cells that call the service stop at once when [client] is unbound;
    cell 14 has bound [test_messages] by then. *)
Lemma service_cell_without_client (cell : Cell) (m : Machine W) :
  job_cell cell = true ∨ cell = Cell10 ∨ cell = Cell14 →
  client (globals m) = None →
  (run_cell out cell m).2 = Raise (NameError "client")
  ∧ world (run_cell out cell m).1 = world m
  ∧ stdout (run_cell out cell m).1 = stdout m
  ∧ calls (run_cell out cell m).1 = calls m
  ∧ (cell ≠ Cell14 → globals (run_cell out cell m).1 = globals m).
Proof.
  intros Hcell Hc.
  destruct cell; simpl in *;
    try (destruct Hcell as [?|[?|?]]; discriminate);
    unfold_cells; unfold_monad; simpl; rewrite Hc; done.
Qed.

(** What a cell other than cell 1 does on a machine where cell 1 has not
    run: it raises [NameError] and leaves the machine as it was, but for
    the names cell 2 and cell 14 bind before they stop. *)
Lemma run_cell_unstarted (w : W) (cell : Cell) (m : Machine W) :
  cell ≠ Cell1 → unstarted w m →
  (run_cell out cell m).2 = Raise (NameError (first_missing cell))
  ∧ unstarted w (run_cell out cell m).1.
Proof.
  intros Hcell (Hos & Hc & Ht & Hw & Hout & Hcalls). unfold unstarted.
  destruct cell; try done.
  - simpl. unfold cell2. unfold_monad. simpl. rewrite Hos. done.
  - simpl. unfold cell4. unfold_monad. rewrite Ht. done.
  - destruct (service_cell_without_client Cell6 m) as (-> & -> & -> & -> & Hg); auto.
    rewrite Hg; done.
  - destruct (service_cell_without_client Cell8 m) as (-> & -> & -> & -> & Hg); auto.
    rewrite Hg; done.
  - destruct (service_cell_without_client Cell10 m) as (-> & -> & -> & -> & Hg); auto.
    rewrite Hg; done.
  - destruct (service_cell_without_client Cell12 m) as (-> & -> & -> & -> & Hg); auto.
    rewrite Hg; done.
  - destruct (service_cell_without_client Cell14 m) as (-> & -> & -> & -> & _); auto.
    split; [done|].
    rewrite <- (run_cell_keeps_other_names out Cell14 v_os m eq_refl).
    rewrite <- (run_cell_keeps_other_names out Cell14 v_client m eq_refl).
    rewrite <- (run_cell_keeps_other_names out Cell14 v_training_file_name m eq_refl).
    done.
Qed.

Lemma session_unstarted (w : W) (cs : list Cell) (m : Machine W) :
  Cell1 ∉ cs → unstarted w m → unstarted w (session out cs m).
Proof.
  revert m. induction cs as [|cell cs IH]; intros m Hcs Hm; [done|].
  apply not_elem_of_cons in Hcs as [Hcell Hcs]. simpl.
  apply IH; [done|]. apply run_cell_unstarted; [congruence|done].
Qed.
End NoClient.

(** X8 (nothing without cell 1): a cell that calls the service, run while
    [client] is unbound, raises [NameError] for it before sending or
    printing anything.  In a session from a fresh kernel that never runs
    cell 1, in whatever order the other cells are run, no file is opened,
    nothing is sent, nothing is printed, and every cell ends in a
    [NameError]: cell 2 for [os], cell 4 for [training_file_name], the
    others for [client]. *)
Theorem without_cell1_nothing_reaches_service {W : Type} (out : Outside W)
    (cs : list Cell) (w : W) :
  Cell1 ∉ cs →
  calls (session out cs (boot w)) = []
  ∧ stdout (session out cs (boot w)) = []
  ∧ world (session out cs (boot w)) = w
  ∧ (∀ cell, cell ≠ Cell1 →
       (run_cell out cell (session out cs (boot w))).2
       = Raise (NameError (first_missing cell)))
  ∧ (∀ (cell : Cell) (m : Machine W),
       job_cell cell = true ∨ cell = Cell10 ∨ cell = Cell14 →
       client (globals m) = None →
       (run_cell out cell m).2 = Raise (NameError "client")
       ∧ world (run_cell out cell m).1 = world m
       ∧ stdout (run_cell out cell m).1 = stdout m
       ∧ calls (run_cell out cell m).1 = calls m).
Proof.
  intros Hcs.
  assert (unstarted w (session out cs (boot w))) as Hun.
  { apply session_unstarted; [done|]. by repeat split. }
  pose proof Hun as (_ & _ & _ & Hw & Hout & Hcalls).
  split; [done|]. split; [done|]. split; [done|]. split.
  - intros cell Hcell. by apply (run_cell_unstarted out w).
  - intros cell m Hcell Hc.
    destruct (service_cell_without_client out cell m Hcell Hc) as (? & ? & ? & ? & _).
    done.
Qed.

Lemma without_cell1_nothing_reaches_service_witness :
  calls (session Recorded.out [Cell2; Cell4; Cell6; Cell8; Cell12; Cell14] (boot 0%nat))
  = []
  ∧ stdout (session Recorded.out [Cell2; Cell4; Cell6; Cell8; Cell12; Cell14] (boot 0%nat))
    = [].
Proof.
  assert (Cell1 ∉ [Cell2; Cell4; Cell6; Cell8; Cell12; Cell14]) as Hcs.
  { intros Hin. repeat (apply elem_of_cons in Hin as [Hin|Hin]; [discriminate Hin|]).
    by apply elem_of_nil in Hin. }
  destruct (without_cell1_nothing_reaches_service Recorded.out
              [Cell2; Cell4; Cell6; Cell8; Cell12; Cell14] 0%nat Hcs)
    as (Hcalls & Hout & _).
  by split.
Defined.

Global Instance Cell_eq_dec : EqDecision Cell.
Proof. solve_decision. Defined.

(** The path cell 2 gives the validation file. *)
Definition validation_path : string := "data/review_finetune_validation.jsonl".

Definition is_create (r : Request) : bool :=
  match r with
  | ReqJobsCreate _ _ => true
  | _ => false
  end.

(** What stays true of a machine while the validation file has never been
    uploaded: its id is unbound, its name is unbound or the path of cell 2,
    and no job creation has been sent. *)
Definition awaiting_validation {W : Type} (m : Machine W) : Prop :=
  validation_file_id (globals m) = None
  ∧ (validation_file_name (globals m) = None
     ∨ validation_file_name (globals m) = Some validation_path)
  ∧ Forall (λ r, negb (is_create r) = true) (calls m).

Section NoValidation.
Context {W : Type} (out : Outside W).
Context (Habsent : ∀ w, (out_open out w validation_path).2 = None).

Lemma run_cell_keeps_no_create (cell : Cell) :
  cell ≠ Cell6 → keeps_log (λ r, negb (is_create r)) (run_cell out cell).
Proof.
  intros Hcell. destruct cell; try done; simpl; unfold_cells;
    repeat keeps_step; apply print_messages_keeps.
Qed.

(** Cell 6 sends nothing while [validation_file_id] is unbound. *)
Lemma cell6_without_validation_id (m : Machine W) :
  validation_file_id (globals m) = None →
  (∃ name, (cell6 out m).2 = Raise (NameError name))
  ∧ (cell6 out m).1 = m.
Proof.
  intros Hv. unfold cell6. unfold_monad.
  destruct (client (globals m)); simpl; [|by eauto].
  destruct (training_file_id (globals m)); simpl; [|by eauto].
  rewrite Hv. simpl. by eauto.
Qed.

(** Cell 4 cannot bind [validation_file_id] when the file is missing. *)
Lemma cell4_awaiting_validation (m : Machine W) :
  awaiting_validation m → validation_file_id (globals (cell4 out m).1) = None.
Proof.
  intros (Hid & Hname & _). unfold cell4, open_rb, files_create. unfold_monad.
  destruct (training_file_name (globals m)) as [tn|]; simpl; [|done].
  destruct (out_open out (world m) tn) as [w1 [tb|]]; simpl; [|done].
  destruct (client (globals m)) as [c|]; simpl; [|done].
  destruct (out_files_create out w1 c tb "fine-tune") as [w2 [err|r1]]; simpl; [done|].
  destruct Hname as [->| ->]; simpl; [done|].
  pose proof (Habsent w2) as Hopen.
  destruct (out_open out w2 validation_path) as [w3 f]. simpl in Hopen. subst f.
  done.
Qed.

Lemma run_cell_awaiting_validation (cell : Cell) (m : Machine W) :
  awaiting_validation m → awaiting_validation (run_cell out cell m).1.
Proof.
  intros Hm. pose proof Hm as (Hid & Hname & Hcalls).
  destruct (decide (cell = Cell6)) as [->|Hcell].
  { simpl. by destruct (cell6_without_validation_id m Hid) as [_ ->]. }
  split; [|split].
  - destruct (decide (cell = Cell4)) as [->|Hcell4].
    + by apply cell4_awaiting_validation.
    + rewrite <- Hid. symmetry.
      apply (run_cell_keeps_other_names out cell v_validation_file_id).
      by destruct cell.
  - destruct (decide (cell = Cell2)) as [->|Hcell2].
    + simpl. unfold cell2. unfold_monad. simpl.
      destruct (os (globals m)) eqn:Hos; simpl; rewrite ?Hos; simpl; [by right|done].
    + assert (validation_file_name (globals m)
              = validation_file_name (globals (run_cell out cell m).1)) as <-; [|done].
      apply (run_cell_keeps_other_names out cell v_validation_file_name).
      by destruct cell.
  - by apply run_cell_keeps_no_create.
Qed.

Lemma session_awaiting_validation (cs : list Cell) (m : Machine W) :
  awaiting_validation m → awaiting_validation (session out cs m).
Proof.
  revert m. induction cs as [|cell cs IH]; intros m Hm; [done|].
  simpl. by apply IH, run_cell_awaiting_validation.
Qed.
End NoValidation.

(** X9 (no validation file, no job): when no file can be opened at the path
    cell 2 gives the validation file, then in every session from a fresh
    kernel, whatever cells are run and in whatever order,
    [validation_file_id] is never bound, no job creation is ever sent, and
    cell 6 ends in a [NameError]. *)
Theorem missing_validation_file_blocks_job_creation {W : Type} (out : Outside W)
    (cs : list Cell) (w : W) :
  (∀ w', (out_open out w' validation_path).2 = None) →
  validation_file_id (globals (session out cs (boot w))) = None
  ∧ (∀ c p, ReqJobsCreate c p ∉ calls (session out cs (boot w)))
  ∧ (∃ name, (cell6 out (session out cs (boot w))).2 = Raise (NameError name)).
Proof.
  intros Habsent.
  assert (awaiting_validation (session out cs (boot w))) as (Hid & _ & Hcalls).
  { apply session_awaiting_validation; [done|].
    split; [done|]. split; [by left|constructor]. }
  split; [done|]. split.
  - intros c p Hin. rewrite Forall_forall in Hcalls.
    specialize (Hcalls _ Hin). discriminate Hcalls.
  - by apply cell6_without_validation_id.
Qed.

Lemma missing_validation_file_blocks_job_creation_witness :
  ∃ name,
    (cell6 NoValidationFile.out
       (session NoValidationFile.out [Cell1; Cell2; Cell4; Cell6; Cell4] (boot 0%nat))).2
    = Raise (NameError name).
Proof.
  apply (missing_validation_file_blocks_job_creation NoValidationFile.out
           [Cell1; Cell2; Cell4; Cell6; Cell4] 0%nat).
  intros w'. reflexivity.
Defined.

(** * Running a cell again *)

(** A second upload that stops half-way: the training file is accepted
    again under a new id, and the validation file is gone by then. *)
Module SecondUpload.
Definition scenario : Scenario.t :=
  Scenario.mk
    (λ _, true)
    (λ name, if decide (name = "OPENAI_API_KEY") then Some "sk-test" else None)
    (λ path, if decide (path = "data/review_finetune_training.jsonl") then Some "t"
             else None)
    (λ _, inr (FileObject.mk "file-new-training"))
    (λ t, inr (Recorded.job_at t)) (λ _, inr []) no_chat S.
Definition out : Outside nat := Scenario.play scenario.
(* the kernel left by a first, complete run of cells 1, 2 and 4 *)
Definition before : Machine nat := session Recorded.out [Cell1; Cell2; Cell4] (boot 0%nat).
End SecondUpload.

(** X10 (cell 4 is not atomic): when cell 4 uploads the training file and
    then stops at the validation file (the file is missing, or the service
    refuses the upload), [training_file_id] is already bound to the new
    upload while [validation_file_id] keeps the value it had.  If an earlier
    run had bound it, cell 6 run next sends the new training id together
    with the earlier validation id. *)
Theorem cell4_stopped_midway_leaves_mixed_ids {W : Type} (out : Outside W)
    (m : Machine W) (c : Client) (tn vn tb : string) (w1 w2 w3 : W)
    (r1 : FileObject.t) (f2 : option string) :
  training_file_name (globals m) = Some tn →
  validation_file_name (globals m) = Some vn →
  client (globals m) = Some c →
  out_open out (world m) tn = (w1, Some tb) →
  out_files_create out w1 c tb "fine-tune" = (w2, inr r1) →
  out_open out w2 vn = (w3, f2) →
  (f2 = None ∨ ∃ vb w4 err, f2 = Some vb
                 ∧ out_files_create out w3 c vb "fine-tune" = (w4, inl err)) →
  (cell4 out m).2 ≠ Ok tt
  ∧ training_file_id (globals (cell4 out m).1) = Some (FileObject.id r1)
  ∧ validation_file_id (globals (cell4 out m).1) = validation_file_id (globals m)
  ∧ stdout (cell4 out m).1 = stdout m
  ∧ ∀ old, validation_file_id (globals m) = Some old →
      calls (cell6 out (cell4 out m).1).1 =
        calls (cell4 out m).1
        ++ [ReqJobsCreate c (cell6_params (FileObject.id r1) old)].
Proof.
  intros Ht Hv Hc Ho1 Hu1 Ho2 Hstop.
  assert (∃ w' g log e,
            cell4 out m = (mkMachine w' g (stdout m) log, Raise e)
            ∧ training_file_id g = Some (FileObject.id r1)
            ∧ validation_file_id g = validation_file_id (globals m)
            ∧ client g = Some c) as (w' & g & log & e & Hrun & Hgt & Hgv & Hgc).
  { rewrite (cell4_run out m c tn vn Ht Hv Hc), Ho1, Hu1, Ho2.
    destruct Hstop as [->|(vb & w4 & err & -> & Hu2)].
    - by repeat eexists.
    - rewrite Hu2. by repeat eexists. }
  rewrite Hrun. simpl. repeat split; [done..|].
  intros old Hold.
  rewrite (cell6_run out _ c (FileObject.id r1) old); simpl; [|congruence..].
  destruct (out_jobs_create out w' c _) as [w'' [err|j]]; reflexivity.
Qed.

Lemma cell4_stopped_midway_leaves_mixed_ids_witness :
  calls (cell6 SecondUpload.out (cell4 SecondUpload.out SecondUpload.before).1).1 =
  calls (cell4 SecondUpload.out SecondUpload.before).1
  ++ [ReqJobsCreate (mkClient "sk-test")
        (cell6_params "file-new-training" "file-L00HnShcn5CWFtGm1IPs2Ncc")].
Proof.
  assert (validation_file_id (globals SecondUpload.before)
          = Some "file-L00HnShcn5CWFtGm1IPs2Ncc") as Hold
    by (vm_compute; reflexivity).
  refine (proj2 (proj2 (proj2 (proj2
            (cell4_stopped_midway_leaves_mixed_ids SecondUpload.out SecondUpload.before
               (mkClient "sk-test") "data/review_finetune_training.jsonl"
               "data/review_finetune_validation.jsonl" "t" 7%nat 8%nat 9%nat
               (FileObject.mk "file-new-training") None
               _ _ _ _ _ _ _)))) _ Hold);
    first [vm_compute; reflexivity | by left].
Defined.

(** The cells that only read from the service: 8, 10 and 12. *)
Definition read_cell (cell : Cell) : bool :=
  match cell with
  | Cell8 | Cell10 | Cell12 => true
  | _ => false
  end.

Section Rerun.
Context {W : Type} (out : Outside W).

(** What a second run of a cell does after a first one that left the
    world as it was: same outcome, same globals, same lines printed. *)
Definition reruns_alike (cell : Cell) (m : Machine W) : Prop :=
  let m1 := (run_cell out cell m).1 in
  world m1 = world m →
  (run_cell out cell m1).2 = (run_cell out cell m).2
  ∧ globals (run_cell out cell m1).1 = globals m1
  ∧ ∃ lines, stdout m1 = stdout m ++ lines
             ∧ stdout (run_cell out cell m1).1 = stdout m1 ++ lines.

Lemma rerun_stopped (cell : Cell) (m : Machine W) :
  (run_cell out cell m).1 = m → reruns_alike cell m.
Proof.
  intros Hm. unfold reruns_alike. simpl. rewrite !Hm. intros _.
  split; [done|]. split; [done|].
  exists []. by rewrite app_nil_r.
Qed.

Lemma cell8_reruns_alike (m : Machine W) : reruns_alike Cell8 m.
Proof.
  destruct (client (globals m)) as [c|] eqn:Hc;
    [destruct (job_id (globals m)) as [id|] eqn:Hid|].
  - unfold reruns_alike. simpl. rewrite (cell8_run out m c id Hc Hid).
    destruct (out_jobs_retrieve out (world m) c id) as [w2 [e|j]] eqn:Hans;
      simpl; intros ->; (rewrite (cell8_run out _ c id); [|done..]);
      simpl; rewrite Hans; simpl.
    + split; [done|]. split; [done|]. exists []. by rewrite !app_nil_r.
    + split; [done|]. split; [done|]. by eexists.
  - apply rerun_stopped. simpl. unfold cell8. unfold_monad. by rewrite Hc, Hid.
  - apply rerun_stopped. simpl. unfold cell8. unfold_monad. by rewrite Hc.
Qed.

Lemma cell10_reruns_alike (m : Machine W) : reruns_alike Cell10 m.
Proof.
  destruct (client (globals m)) as [c|] eqn:Hc;
    [destruct (job_id (globals m)) as [id|] eqn:Hid|].
  - unfold reruns_alike. simpl. rewrite (cell10_run out m c id Hc Hid).
    destruct (out_jobs_list_events out (world m) c id) as [w2 [e|data]] eqn:Hans;
      simpl.
    + intros ->. rewrite (cell10_run out _ c id); [|done..].
      simpl. rewrite Hans. simpl.
      split; [done|]. split; [done|]. exists []. by rewrite !app_nil_r.
    + rewrite after_loop_last. intros ->.
      rewrite (cell10_run out _ c id); simpl;
        [|by destruct (last (reverse data))..].
      rewrite Hans. simpl. rewrite !after_loop_last.
      split; [done|]. split; [|by eexists].
      destruct (last (reverse data)); destruct (globals m); reflexivity.
  - apply rerun_stopped. simpl. unfold cell10. unfold_monad. by rewrite Hc, Hid.
  - apply rerun_stopped. simpl. unfold cell10. unfold_monad. by rewrite Hc.
Qed.

Lemma cell12_reruns_alike (m : Machine W) : reruns_alike Cell12 m.
Proof.
  destruct (client (globals m)) as [c|] eqn:Hc;
    [destruct (job_id (globals m)) as [id|] eqn:Hid|].
  - unfold reruns_alike. simpl. rewrite (cell12_run out m c id Hc Hid).
    destruct (out_jobs_retrieve out (world m) c id) as [w2 [e|j]] eqn:Hans; simpl.
    + intros ->. (rewrite (cell12_run out _ c id); [|done..]).
      simpl. rewrite Hans. simpl.
      split; [done|]. split; [done|]. exists []. by rewrite !app_nil_r.
    + destruct (FineTuningJob.fine_tuned_model j) as [name|] eqn:Hm; simpl;
        intros ->; (rewrite (cell12_run out _ c id); [|done..]);
        simpl; rewrite Hans; simpl; rewrite Hm.
      * split; [done|]. split; [done|]. by eexists.
      * split; [done|]. split; [done|]. exists []. by rewrite !app_nil_r.
  - apply rerun_stopped. simpl. unfold cell12. unfold_monad. by rewrite Hc, Hid.
  - apply rerun_stopped. simpl. unfold cell12. unfold_monad. by rewrite Hc.
Qed.
End Rerun.

(** X11 (reading again): when the status check, the event listing or the
    model-name retrieval is run a second time and the first run left the
    outside world as it was, the second run ends as the first did, leaves
    the globals as the first left them and prints the same lines again; in
    particular the events are not reversed a second time. *)
Theorem read_cells_rerun_alike {W : Type} (out : Outside W) (cell : Cell)
    (m : Machine W) :
  read_cell cell = true →
  world (run_cell out cell m).1 = world m →
  (run_cell out cell (run_cell out cell m).1).2 = (run_cell out cell m).2
  ∧ globals (run_cell out cell (run_cell out cell m).1).1
    = globals (run_cell out cell m).1
  ∧ ∃ lines,
      stdout (run_cell out cell m).1 = stdout m ++ lines
      ∧ stdout (run_cell out cell (run_cell out cell m).1).1
        = stdout (run_cell out cell m).1 ++ lines.
Proof.
  intros Hcell.
  destruct cell; try discriminate Hcell.
  - apply cell8_reruns_alike.
  - apply cell10_reruns_alike.
  - apply cell12_reruns_alike.
Qed.

(** The recorded job's last events, on a service that stands still. *)
Module StillTraining.
Definition out : Outside nat :=
  Scenario.play (scripted (λ t, inr (Recorded.job_at 7)) (λ _, inr Training.page)
                   no_chat (λ t, t)).
Definition ready : Machine nat := submitted StillTraining.out 0%nat.
End StillTraining.

Lemma read_cells_rerun_alike_witness :
  let m1 := (run_cell StillTraining.out Cell10 StillTraining.ready).1 in
  globals (run_cell StillTraining.out Cell10 m1).1 = globals m1.
Proof.
  intros m1.
  apply (read_cells_rerun_alike StillTraining.out Cell10 StillTraining.ready eq_refl).
  vm_compute. reflexivity.
Defined.
